(** * Birthday WhatsApp bot: a model of [birthday_bot.py] and its properties

    The bot is one sequential batch job: it loads a contact sheet, keeps
    the contacts whose birthday is today and who were not greeted this
    year, composes a greeting for each, sends it through one of two
    WhatsApp providers and records the send in a [sent] table.

    The development follows the source top-down: Python values and the
    string primitives the bot uses, the outside world (clock, time zones,
    date parser, random source, OpenAI, HTTP), a state-and-exception monad
    for the effects, the functions of the source under their own names,
    and then the properties. *)

From Stdlib Require Import String Ascii ZArith List Lia Bool.
From stdpp Require Import base option gmap strings list pretty.

Local Open Scope string_scope.
Local Open Scope Z_scope.

(** ** Python values and string primitives *)

Module Py.

(** A calendar date ([datetime.date]); a [pd.Timestamp] is kept as the
    date of its midnight, since birthdays carry no time of day. *)
Record date := Date { year : Z; month : Z; day : Z }.

(** What [pd.to_datetime(...).date()] can yield: a date, or pandas'
    not-a-time [NaT], whose [date()] is [NaT] again. *)
Inductive stamp :=
| Stamp (d : date)
| NaT.
Coercion Stamp : date >-> stamp.

(** The scalar values a spreadsheet cell (or an absent optional column)
    yields. [PNaN] is the float [nan] pandas puts in an empty cell; the
    [NaT] of an empty cell in a date column, which [pd.isna] treats
    alike, is not modelled apart. Strings are UTF-8 byte strings. [PDate] is a date cell as
    [read_excel] yields it, a [pd.Timestamp]. Floats other than [nan],
    and date cells beyond the range of [pd.Timestamp], are not
    modelled. *)
Inductive pyval :=
| PNone
| PNaN
| PStr (s : string)
| PInt (n : Z)
| PDate (d : date).

(** What [row.get] returns: a scalar, or, when several columns carry the
    label, a [pd.Series] of their cells. *)
Inductive cell :=
| Scalar (v : pyval)
| Series (vs : list pyval).
Coercion Scalar : pyval >-> cell.

(** Python exceptions that the modelled code can meet. *)
Inductive exn :=
| ValueError
| AttributeError
| TypeError
| IndexError
| OverflowError
| UnknownTimeZoneError
| ParserError
| OpenAIError
| RequestException
| OtherError.

(** The outcome of evaluating a Python expression. *)
Inductive result (A : Type) :=
| Ok (a : A)
| Raise (e : exn).
Arguments Ok {A} a.
Arguments Raise {A} e.

(** [bool(v)] on a scalar: [None], the empty string and 0 are false;
    [nan] is a non-zero float and hence true. *)
Definition truthy (v : pyval) : bool :=
  match v with
  | PNone => false
  | PNaN => true
  | PStr s => negb (String.eqb s "")
  | PInt n => negb (n =? 0)
  | PDate _ => true
  end.

(** [bool(c)]: the truth value of a Series is ambiguous and raises. *)
Definition truth (c : cell) : result bool :=
  match c with
  | Scalar v => Ok (truthy v)
  | Series _ => Raise ValueError
  end.

(** [pd.isna(v)] on a scalar. *)
Definition isna (v : pyval) : bool :=
  match v with
  | PNone | PNaN => true
  | _ => false
  end.


(** Left-pads a decimal with zeros up to [w] characters. *)
Definition zfill (w : nat) (s : string) : string :=
  String.concat "" (List.repeat "0" (w - String.length s)) +:+ s.

(** [str(v)] on a scalar. A timestamp prints as ISO date and midnight. *)
Definition str (v : pyval) : string :=
  match v with
  | PNone => "None"
  | PNaN => "nan"
  | PStr s => s
  | PInt n => pretty n
  | PDate d =>
      zfill 4 (pretty (year d)) +:+ "-" +:+ zfill 2 (pretty (month d)) +:+ "-"
      +:+ zfill 2 (pretty (day d)) +:+ " 00:00:00"
  end.

(** [s.startswith(p)]. *)
Fixpoint startswith (p s : string) : bool :=
  match p with
  | EmptyString => true
  | String a p' =>
      match s with
      | String b s' => Ascii.eqb a b && startswith p' s'
      | EmptyString => false
      end
  end.

Local Open Scope nat_scope.

(** The string with the given bytes. *)
Definition bytes (l : list nat) : string :=
  fold_right (λ n s, String (ascii_of_nat n) s) EmptyString l.

(** The characters for which [str.isspace] holds, in UTF-8: U+0009 to
    U+000D, U+001C to U+0020, U+0085, U+00A0, U+1680, U+2000 to U+200A,
    U+2028, U+2029, U+202F, U+205F and U+3000. *)
Definition spaces : list string :=
  List.map bytes
            [[9]; [10]; [11]; [12]; [13]; [28]; [29]; [30]; [31]; [32];
              [194; 133]; [194; 160]; [225; 154; 128];
              [226; 128; 128]; [226; 128; 129]; [226; 128; 130]; [226; 128; 131];
              [226; 128; 132]; [226; 128; 133]; [226; 128; 134]; [226; 128; 135];
              [226; 128; 136]; [226; 128; 137]; [226; 128; 138];
              [226; 128; 168]; [226; 128; 169]; [226; 128; 175];
              [226; 129; 159]; [227; 128; 128]].

(** The number of bytes of the white-space character [s] starts with, 0
    when it starts with none. *)
Definition space_len (s : string) : nat :=
  match List.find (λ e, startswith e s) spaces with
  | Some e => String.length e
  | None => O
  end.

(** [s.lstrip()]; [skip] counts the bytes of a white-space character
    still to be dropped. *)
Fixpoint lstrip_from (skip : nat) (s : string) : string :=
  match s with
  | EmptyString => EmptyString
  | String _ r =>
      match skip with
      | S k => lstrip_from k r
      | O =>
          match space_len s with
          | O => s
          | S k => lstrip_from k r
          end
      end
  end.

Definition lstrip (s : string) : string := lstrip_from 0 s.

(** Whether the text consists of white space only. *)
Fixpoint all_space_from (skip : nat) (s : string) : bool :=
  match s with
  | EmptyString => Nat.eqb skip 0
  | String _ r =>
      match skip with
      | S k => all_space_from k r
      | O =>
          match space_len s with
          | O => false
          | S k => all_space_from k r
          end
      end
  end.

(** [s.rstrip()]: the text is cut where its all-white-space tail begins. *)
Fixpoint rstrip (s : string) : string :=
  match s with
  | EmptyString => EmptyString
  | String c r => if all_space_from 0 s then EmptyString else String c (rstrip r)
  end.

(** [s.strip()] on (the UTF-8 encoding of) a Python string. *)
Definition strip (s : string) : string := rstrip (lstrip s).

Definition lower_char (c : ascii) : ascii :=
  let n := nat_of_ascii c in
  if ((65 <=? n) && (n <=? 90))%nat then ascii_of_nat (n + 32) else c.

(** [s.lower()] as far as ASCII goes: the letters A to Z and the Kelvin
    sign U+212A, the one other character whose lower case is ASCII, are
    lowered; other characters are left as they are. Whether the result
    equals an ASCII word is therefore as in Python. *)
Fixpoint lower_from (skip : nat) (s : string) : string :=
  match s with
  | EmptyString => EmptyString
  | String c r =>
      match skip with
      | S k => lower_from k r
      | O =>
          if startswith (bytes [226; 132; 170]) s then String "k" (lower_from 2 r)
          else String (lower_char c) (lower_from 0 r)
      end
  end.

Definition lower (s : string) : string := lower_from 0 s.

Local Close Scope nat_scope.

(** [s.replace(old, new)] for a non-empty [old]: scanning from the left,
    each occurrence of [old] is replaced and the scan resumes after it.
    [skip] counts the characters of a just-replaced occurrence that are
    still to be passed over. *)
Fixpoint replace_from (old new : string) (skip : nat) (s : string) : string :=
  match s with
  | EmptyString => EmptyString
  | String c r =>
      match skip with
      | S k => replace_from old new k r
      | O =>
          if startswith old s
          then new +:+ replace_from old new (String.length old - 1) r
          else String c (replace_from old new 0 r)
      end
  end.

Definition replace (old new s : string) : string := replace_from old new 0 s.

(** *** [str.format] with the single keyword argument [name]

    The scanner copies literal text, turns the escapes [{{] and [}}] into
    one brace, rejects a lone [}] and a [{] that ends the string, and
    replaces the field [{name}] by the argument. Any other replacement
    field (another key, a positional index, attribute or item access, a
    conversion, a format specification, an unterminated field) is left to
    [other_field], which is given the argument and the text after the
    opening brace and answers with what Python makes of the rest. *)
Section Format.
Variable other_field : string -> string -> result string.

Definition emit (pre : string) (r : result string) : result string :=
  match r with
  | Ok s => Ok (pre +:+ s)
  | Raise e => Raise e
  end.

Fixpoint format_from (name : string) (skip : nat) (s : string) : result string :=
  match s with
  | EmptyString => Ok EmptyString
  | String c r =>
      match skip with
      | S k => format_from name k r
      | O =>
          if Ascii.eqb c "{" then
            match r with
            | EmptyString => Raise ValueError
            | String c' _ =>
                if Ascii.eqb c' "{" then emit "{" (format_from name 1 r)
                else if startswith "name}" r
                     then emit name (format_from name 5 r)
                     else other_field name r
            end
          else if Ascii.eqb c "}" then
            match r with
            | String c' _ =>
                if Ascii.eqb c' "}" then emit "}" (format_from name 1 r)
                else Raise ValueError
            | EmptyString => Raise ValueError
            end
          else emit (String c EmptyString) (format_from name 0 r)
      end
  end.

(** [s.format(name=name)]. *)
Definition format (s name : string) : result string := format_from name 0 s.
End Format.

(** A float setting, as far as [time.sleep] tells values apart: not a
    number, infinite, or finite and worth so many nanoseconds. *)
Inductive pyfloat :=
| FNaN
| FInfinite
| FNanos (n : Z).

(** What [time.sleep(d)] makes of its argument (CPython 3.11): a value
    that is not a number or is negative raises [ValueError], one beyond
    the 64-bit nanosecond range raises [OverflowError]. *)
Definition sleep_check (d : pyfloat) : result unit :=
  match d with
  | FNaN => Raise ValueError
  | FInfinite => Raise OverflowError
  | FNanos n =>
      if (n <? - 2 ^ 63) || (2 ^ 63 <=? n) then Raise OverflowError
      else if n <? 0 then Raise ValueError
      else Ok tt
  end.

End Py.

Import Py.

(** ** Configuration, the outside world, and the run's state *)

(** The module-level constants read from the environment. [os.getenv]
    gives [None] for an unset variable. [openai_imported] says whether
    [import openai] succeeded. [SEND_DELAY_SECONDS] is the float handed
    to [time.sleep]. *)
Record config := Config {
  TWILIO_ACCOUNT_SID : option string;
  TWILIO_AUTH_TOKEN : option string;
  TWILIO_WHATSAPP_FROM : option string;
  META_WABA_TOKEN : option string;
  META_PHONE_NUMBER_ID : option string;
  OPENAI_API_KEY : option string;
  OPENAI_MODEL : string;
  openai_imported : bool;
  CONTACTS_FILE : string;
  CONTACTS_SHEET : string;
  MAX_MESSAGES_PER_RUN : Z;
  SEND_DELAY_SECONDS : pyfloat
}.

(** Truth value of an environment setting: set and not empty. *)
Definition configured (v : option string) : bool :=
  match v with
  | Some s => negb (String.eqb s "")
  | None => false
  end.

(** The text an f-string shows for a setting. *)
Definition shown (v : option string) : string :=
  match v with
  | Some s => s
  | None => "None"
  end.

(** An outbound HTTP request, as [requests.post] receives it. *)
Inductive request :=
| TwilioPost (url from to body : string) (auth : string * string)
| MetaPost (url authorization to body : string).

(** A call on the logger: the format string and its arguments. *)
Inductive logrec :=
| LogInfo (fmt : string) (args : list string)
| LogError (fmt : string) (args : list string)
| LogException (fmt : string) (args : list string).

(** A loaded sheet: column labels, which are whatever the header cells
    hold, and positional rows. *)
Record dataframe := DataFrame {
  columns : list pyval;
  rows : list (list pyval)
}.

(** Everything the bot gets from outside. Answers that can differ from
    one call to the next (time, random draws, network) are indexed by the
    number of earlier interactions, [ticks] below. Instants are POSIX
    microseconds; a time zone is known by its canonical name.
    [to_datetime] stands for [pd.to_datetime(s).date()] on text: a date,
    [NaT] for text pandas reads as not-a-time, or nothing when the parse
    raises. [series_text] is the text [str] shows for a Series.
    [replace_on_date] is the exception [.replace("{name}", name)] raises
    on a date-like cell ([TypeError] for a datetime or date, [ValueError]
    for a Timestamp). *)
Record external := External {
  clock : nat -> Z;
  pytz_timezone : string -> option string;
  local_date : string -> Z -> date;
  isoformat : Z -> string;
  to_datetime : string -> option stamp;
  random_index : nat -> nat;
  chat_completion : nat -> string -> string -> option string;
  http_post : nat -> request -> option (Z * string);
  other_field : string -> string -> result string;
  read_excel : string -> string -> option dataframe;
  series_text : list pyval -> string;
  replace_on_date : exn
}.

(** [pytz.utc]. *)
Definition utc : string := "UTC".

(** The state a run reads and writes. [sent] is the [sent] table, keyed
    by its primary key (phone, year) and holding (sent_at, message); a
    table that was never created holds no row. The SQLite file is taken
    to be readable and writable: its statements do not fail. [attempts] lists the calls
    of [send_whatsapp] (bookkeeping of the model), [posts] the HTTP
    requests made, [logs] the logger calls, all in order of occurrence. *)
Record world := World {
  ticks : nat;
  sent : gmap (string * Z) (string * string);
  attempts : list (string * string);
  posts : list request;
  logs : list logrec;
  sleeps : nat
}.

(** ** Effects: state plus exceptions

    An exception leaves the state as it was when it was raised, as in
    Python. *)

Definition M (A : Type) : Type := world -> result A * world.

#[global] Instance result_ret : MRet result := fun _ a => Ok a.
#[global] Instance result_bind : MBind result := fun _ _ f r =>
  match r with
  | Ok a => f a
  | Raise e => Raise e
  end.

#[global] Instance M_ret : MRet M := fun _ a w => (Ok a, w).
#[global] Instance M_bind : MBind M := fun _ _ f c w =>
  match c w with
  | (Ok a, w') => f a w'
  | (Raise e, w') => (Raise e, w')
  end.

Definition raise {A} (e : exn) : M A := fun w => (Raise e, w).

Definition lift {A} (r : result A) : M A := fun w => (r, w).

(** [try: c  except Exception: h]. *)
Definition try_except {A} (c : M A) (h : exn -> M A) : M A := fun w =>
  match c w with
  | (Ok a, w') => (Ok a, w')
  | (Raise e, w') => h e w'
  end.

(** The same for code without effects. *)
Definition try_pure {A} (r : result A) (h : exn -> result A) : result A :=
  match r with
  | Ok a => Ok a
  | Raise e => h e
  end.

Definition tick : M nat := fun w =>
  (Ok (ticks w),
   World (S (ticks w)) (sent w) (attempts w) (posts w) (logs w) (sleeps w)).

Definition log (r : logrec) : M unit := fun w =>
  (Ok tt, World (ticks w) (sent w) (attempts w) (posts w) (logs w ++ [r]) (sleeps w)).

Definition note_attempt (phone message : string) : M unit := fun w =>
  (Ok tt,
   World (ticks w) (sent w) (attempts w ++ [(phone, message)]) (posts w) (logs w) (sleeps w)).

Definition note_post (r : request) : M unit := fun w =>
  (Ok tt, World (ticks w) (sent w) (attempts w) (posts w ++ [r]) (logs w) (sleeps w)).

(** [time.sleep(d)]: the pause is taken unless the argument is refused. *)
Definition sleep (d : pyfloat) : M unit := fun w =>
  match sleep_check d with
  | Ok _ =>
      (Ok tt, World (ticks w) (sent w) (attempts w) (posts w) (logs w) (S (sleeps w)))
  | Raise e => (Raise e, w)
  end.

(** [for x in l: acc = body(acc, x)]. *)
Fixpoint for_each {A S : Type} (body : S -> A -> M S) (l : list A) (acc : S) : M S :=
  match l with
  | [] => mret acc
  | x :: l' => acc' ← body acc x; for_each body l' acc'
  end.

(** [l[:n]]: a negative [n] counts from the end. *)
Definition slice_to {A} (l : list A) (n : Z) : list A :=
  if 0 <=? n then take (Z.to_nat n) l
  else take (length l - Z.to_nat (- n)) l.

(** ** The functions of [birthday_bot.py] *)

Section Bot.
Variable cfg : config.
Variable ext : external.

(** [datetime.utcnow()]: the instant the clock shows. *)
Definition utcnow : M Z := n ← tick; mret (clock ext n).

(** [datetime.now(tz)], down to the calendar date. *)
Definition now (tz : string) : M date := n ← tick; mret (local_date ext tz (clock ext n)).

(** *** DB helpers *)

(** [CREATE TABLE IF NOT EXISTS]: the rows stay as they are. *)
Definition init_db : M unit := mret tt.

Definition already_sent (phone : string) (yr : Z) : M bool := fun w =>
  (Ok (bool_decide (is_Some (sent w !! (phone, yr)))), w).

Definition upsert (key : string * Z) (row : string * string) : M unit := fun w =>
  (Ok tt,
   World (ticks w) (<[key := row]> (sent w)) (attempts w) (posts w) (logs w) (sleeps w)).

(** [INSERT OR REPLACE] under the primary key (phone, year). *)
Definition record_send (phone : string) (yr : Z) (message : string) : M unit :=
  t ← utcnow;
  upsert (phone, yr) (isoformat ext t, message).

(** *** LLM personalization *)

Definition builtin_templates : list string :=
  [ "Happy Birthday, {name}! ðŸŽ‰ Wishing you a fantastic day filled with joy.";
    "Many happy returns, {name}! Hope you have a wonderful birthday.";
    "Happy Birthday {name}! May your day be full of fun and surprises." ].

Definition fallback_templates : list string :=
  [ "Happy Birthday, {name}! ðŸŽ‰ Wishing you a fantastic day filled with joy.";
    "Many happy returns, {name}! Hope you have a wonderful birthday." ].

(** [random.choice(seq)]. *)
Definition random_choice (seq : list string) : M string :=
  n ← tick;
  match seq !! (random_index ext n mod length seq)%nat with
  | Some t => mret t
  | None => raise IndexError
  end.

(** [template.replace("{name}", name)] on a scalar: a string has the
    method; a date-like value has a [replace] of its own, which rejects
    these arguments; nothing else has the attribute. *)
Definition replace_name (template : pyval) (name : string) : result string :=
  match template with
  | PStr t => Ok (replace "{name}" name t)
  | PDate _ => Raise (replace_on_date ext)
  | _ => Raise AttributeError
  end.

Definition prompt_for (name : string) (notes : pyval) : string :=
  "Write a short (1-2 lines), friendly WhatsApp birthday message for " +:+ name +:+ "."
  +:+ (if truthy notes then " Mention this about them: " +:+ str notes +:+ "." else "")
  +:+ " Keep it casual, emoji-friendly, 40-120 characters, and include the name. No signature.".

(** [openai.ChatCompletion.create(...)] and the extraction of the
    reply's text; [None] from the provider stands for any exception on
    the way. *)
Definition openai_reply (prompt : string) : M string :=
  n ← tick;
  match chat_completion ext n (OPENAI_MODEL cfg) prompt with
  | Some content => mret (strip content)
  | None => raise OpenAIError
  end.

(** The arguments are what [row.get] gave: a Series in the place of the
    template or of the notes raises where its truth value is asked for.
    On the OpenAI path that is while the prompt is built, before the
    [try]. *)
Definition generate_personal_message (name : string) (notes template : cell) : M string :=
  use_template ← lift (truth template);
  if use_template : bool then
    match template with
    | Scalar t => lift (replace_name t name)
    | Series _ => raise ValueError
    end
  else if negb (configured (OPENAI_API_KEY cfg)) || negb (openai_imported cfg) then
    log (LogInfo "OpenAI not configured â€” using builtin template" []);;
    t ← random_choice builtin_templates;
    match notes with
    | Scalar n =>
        let t := if truthy n then t +:+ " PS: " +:+ str n else t in
        lift (format (other_field ext) t name)
    | Series _ => raise ValueError
    end
  else
    match notes with
    | Scalar n =>
        let prompt := prompt_for name n in
        try_except
          (openai_reply prompt)
          (fun _ =>
             log (LogException "OpenAI call failed, using fallback template." []);;
             t ← random_choice fallback_templates;
             lift (format (other_field ext) t name))
    | Series _ => raise ValueError
    end.

(** *** WhatsApp senders *)

(** [requests.post(...)]: the request goes out, then the provider
    answers with a status and a body, or the transport raises. *)
Definition post (r : request) : M (Z * string) :=
  note_post r;;
  n ← tick;
  match http_post ext n r with
  | Some resp => mret resp
  | None => raise RequestException
  end.

Definition accepted (status : Z) : bool := (status =? 200) || (status =? 201).

Definition send_whatsapp_twilio (phone message : string) : M bool :=
  if negb (configured (TWILIO_ACCOUNT_SID cfg) && configured (TWILIO_AUTH_TOKEN cfg)
           && configured (TWILIO_WHATSAPP_FROM cfg)) then
    log (LogError "Twilio credentials not configured." []);; mret false
  else
    let url := "https://api.twilio.com/2010-04-01/Accounts/"
               +:+ shown (TWILIO_ACCOUNT_SID cfg) +:+ "/Messages.json" in
    resp ← post (TwilioPost url (shown (TWILIO_WHATSAPP_FROM cfg)) ("whatsapp:" +:+ phone)
                            message
                            (shown (TWILIO_ACCOUNT_SID cfg), shown (TWILIO_AUTH_TOKEN cfg)));
    if accepted resp.1 then mret true
    else log (LogError "Twilio send failed: %s %s" [pretty resp.1; resp.2]);; mret false.

Definition send_whatsapp_meta (phone message : string) : M bool :=
  if negb (configured (META_WABA_TOKEN cfg) && configured (META_PHONE_NUMBER_ID cfg)) then
    log (LogError "Meta WABA credentials not configured." []);; mret false
  else
    let url := "https://graph.facebook.com/v16.0/"
               +:+ shown (META_PHONE_NUMBER_ID cfg) +:+ "/messages" in
    resp ← post (MetaPost url ("Bearer " +:+ shown (META_WABA_TOKEN cfg)) phone message);
    if accepted resp.1 then mret true
    else log (LogError "Meta send failed: %s %s" [pretty resp.1; resp.2]);; mret false.

(** Choose provider based on configuration; Twilio is preferred. *)
Definition send_whatsapp (phone message : string) : M bool :=
  note_attempt phone message;;
  if configured (TWILIO_ACCOUNT_SID cfg) && configured (TWILIO_AUTH_TOKEN cfg)
     && configured (TWILIO_WHATSAPP_FROM cfg) then
    send_whatsapp_twilio phone message
  else if configured (META_WABA_TOKEN cfg) && configured (META_PHONE_NUMBER_ID cfg) then
    send_whatsapp_meta phone message
  else
    log (LogError "No WhatsApp provider configured." []);; mret false.

(** *** Date utilities *)

(** [pd.to_datetime(s).date()] on a string; a failed parse raises. *)
Definition to_date (s : string) : result stamp :=
  match to_datetime ext s with
  | Some d => Ok d
  | None => Raise ParserError
  end.

(** On a Series [pd.isna] gives a Series, whose truth value raises,
    outside the [try]. *)
Definition parse_birthday (bday_value : cell) : result (option stamp) :=
  match bday_value with
  | Series _ => Raise ValueError
  | Scalar v =>
      if isna v then Ok None
      else
        match v with
        | PDate d => Ok (Some (Stamp d))
        | _ =>
            try_pure (d ← to_date (str v); Ok (Some d))
                     (fun _ => Ok None)
        end
  end.

(** [pytz.timezone(tz_name)]: an unknown name raises, and so does a
    value that is not a string. *)
Definition timezone_of (tz_name : pyval) : result string :=
  match tz_name with
  | PStr s =>
      match pytz_timezone ext s with
      | Some tz => Ok tz
      | None => Raise UnknownTimeZoneError
      end
  | _ => Raise AttributeError
  end.

(** [(bday_date.month == now.month) and (bday_date.day == now.day)]: the
    fields of [NaT] are [nan], which equals nothing. *)
Definition same_day (bday_date : stamp) (today : date) : bool :=
  match bday_date with
  | Stamp d => (month d =? month today) && (day d =? day today)
  | NaT => false
  end.

Definition is_birthday_today (bday_date : stamp) (tz_name : cell) : M bool :=
  named ← lift (truth tz_name);
  tz ← lift (if named : bool
             then match tz_name with
                  | Scalar v => try_pure (timezone_of v) (fun _ => Ok utc)
                  | Series _ => Ok utc
                  end
             else Ok utc);
  today ← now tz;
  mret (same_day bday_date today).

(** *** Main run *)

(** A recipient for today: (name, phone, notes, template). *)
Definition candidate : Type := string * string * cell * cell.

(** The positions, counted from [i], of the columns labelled [key]. *)
Fixpoint positions (cols : list string) (key : string) (i : nat) : list nat :=
  match cols with
  | [] => []
  | c :: cs => (if decide (c = key) then [i] else []) ++ positions cs key (S i)
  end.

(** [row.get(key, default)]: the cell under the column labelled [key],
    the Series of the cells when several columns carry the label, the
    default when none does. A row shorter than the header reads as empty
    cells. *)
Definition row_get (cols : list string) (row : list pyval) (key : string)
    (default : pyval) : cell :=
  match positions cols key 0 with
  | [] => Scalar default
  | [i] => Scalar (from_option id PNaN (row !! i))
  | hits => Series ((λ i, from_option id PNaN (row !! i)) <$> hits)
  end.

(** [str(c)] on what [row.get] gave. *)
Definition text (c : cell) : string :=
  match c with
  | Scalar v => str v
  | Series vs => series_text ext vs
  end.

(** One turn of the loop over [df.iterrows()]. A birthday that parses to
    [NaT] is not falsy and goes on to the comparison. *)
Definition consider (cols : list string) (today_year : Z) (to_send : list candidate)
    (row : list pyval) : M (list candidate) :=
  let name := strip (text (row_get cols row "name" (PStr ""))) in
  let phone := strip (text (row_get cols row "phone" (PStr ""))) in
  let bday_raw := row_get cols row "birthday" PNone in
  let timezone := row_get cols row "timezone" PNone in
  let notes := row_get cols row "notes" PNone in
  let template := row_get cols row "template" PNone in
  bday ← lift (parse_birthday bday_raw);
  match bday with
  | None => mret to_send
  | Some bday =>
      send_flag ← try_except (is_birthday_today bday timezone)
                             (fun _ => is_birthday_today bday PNone);
      if send_flag : bool then
        dup ← already_sent phone today_year;
        if dup : bool then
          log (LogInfo "Already sent to %s (%s) this year; skipping." [name; phone]);;
          mret to_send
        else mret (to_send ++ [(name, phone, notes, template)])%list
      else mret to_send
  end.

(** The Filtering stage: every row, in order. *)
Definition filtering (cols : list string) (today_year : Z) (rws : list (list pyval))
    : M (list candidate) :=
  for_each (consider cols today_year) rws [].

(** The body of the [try] for one recipient. *)
Definition deliver (today_year : Z) (sent_count : Z) (c : candidate) : M Z :=
  let '(name, phone, notes, template) := c in
  msg ← generate_personal_message name notes template;
  success ← send_whatsapp phone msg;
  if success : bool then
    record_send phone today_year msg;;
    log (LogInfo "Sent to %s (%s)." [name; phone]);;
    mret (sent_count + 1)
  else
    log (LogError "Failed to send to %s (%s)." [name; phone]);;
    mret sent_count.

(** The [try] statement for one recipient: an exception is logged and
    the count stays. *)
Definition guarded_deliver (today_year : Z) (sent_count : Z) (c : candidate) : M Z :=
  try_except (deliver today_year sent_count c)
             (fun _ =>
                log (LogException "Exception sending to %s (%s)." [c.1.1.1; c.1.1.2]);;
                mret sent_count).

(** One turn of the loop over the recipients; the pause comes after the
    [try] statement, outside it. *)
Definition send_to (today_year : Z) (sent_count : Z) (c : candidate) : M Z :=
  n ← guarded_deliver today_year sent_count c;
  sleep (SEND_DELAY_SECONDS cfg);;
  mret n.

(** The Sending stage: the first [MAX_MESSAGES_PER_RUN] recipients. *)
Definition sending (today_year : Z) (to_send : list candidate) : M Z :=
  for_each (send_to today_year) (slice_to to_send (MAX_MESSAGES_PER_RUN cfg)) 0.

Definition required : list string := ["name"; "phone"; "birthday"].

(** [c.strip().lower()] on a column label: only a string has [strip]. *)
Definition normalise (c : pyval) : result string :=
  match c with
  | PStr s => Ok (lower (strip s))
  | _ => Raise AttributeError
  end.

(** The labels [df.rename] installs; the first label that is not a
    string raises. *)
Fixpoint normalise_all (cs : list pyval) : result (list string) :=
  match cs with
  | [] => Ok []
  | c :: cs' => s ← normalise c; ss ← normalise_all cs'; Ok (s :: ss)
  end.

Definition main : M unit :=
  log (LogInfo "Starting birthday bot." []);;
  init_db;;
  match read_excel ext (CONTACTS_FILE cfg) (CONTACTS_SHEET cfg) with
  | None => log (LogException "Failed to load contacts file: %s" [CONTACTS_FILE cfg])
  | Some df =>
      cols ← lift (normalise_all (columns df));
      match list_find (λ r, r ∉ cols) required with
      | Some (_, r) => log (LogError "Contacts file missing required column: %s" [r])
      | None =>
          t ← utcnow;
          let today_year := year (local_date ext utc t) in
          to_send ← filtering cols today_year (rows df);
          log (LogInfo "Found %d recipients for today." [pretty (length to_send)]);;
          sent_count ← sending today_year to_send;
          log (LogInfo "Run complete. Sent %d messages." [pretty sent_count])
      end
  end.

End Bot.

(** ** Vocabulary of the properties *)

Local Close Scope string_scope.

(** What a computation leaves alone: a step that neither writes the
    [sent] table, nor calls the sender, nor posts, nor sleeps. *)
Definition untouched (w w' : world) : Prop :=
  sent w' = sent w ∧ attempts w' = attempts w ∧ posts w' = posts w ∧ sleeps w' = sleeps w.

(** No [{] and no [}] in the text. *)
Fixpoint no_brace (s : string) : bool :=
  match s with
  | EmptyString => true
  | String c r => negb (Ascii.eqb c "{") && negb (Ascii.eqb c "}") && no_brace r
  end.

(** No [{] in the text. *)
Fixpoint no_open (s : string) : bool :=
  match s with
  | EmptyString => true
  | String c r => negb (Ascii.eqb c "{") && no_open r
  end.

(** Notes as the formatter reads them: literal text, the field [{name}],
    and the escapes [{{] and [}}]. *)
Inductive part :=
| Lit (s : string)
| Field
| OpenEscape
| CloseEscape.

(** The text as written in the sheet. *)
Fixpoint written (ps : list part) : string :=
  match ps with
  | [] => ""
  | Lit s :: ps' => s +:+ written ps'
  | Field :: ps' => "{name}" +:+ written ps'
  | OpenEscape :: ps' => "{{" +:+ written ps'
  | CloseEscape :: ps' => "}}" +:+ written ps'
  end.

(** The text the formatter makes of it. *)
Fixpoint rendered (name : string) (ps : list part) : string :=
  match ps with
  | [] => ""
  | Lit s :: ps' => s +:+ rendered name ps'
  | Field :: ps' => name +:+ rendered name ps'
  | OpenEscape :: ps' => "{" +:+ rendered name ps'
  | CloseEscape :: ps' => "}" +:+ rendered name ps'
  end.

(** The literal parts hold no brace. *)
Definition plain_parts (ps : list part) : Prop :=
  Forall (λ p, match p with Lit s => no_brace s = true | _ => True end) ps.

(** The request each provider adapter builds. *)
Definition twilio_request (cfg : config) (phone message : string) : request :=
  TwilioPost ("https://api.twilio.com/2010-04-01/Accounts/"
              +:+ shown (TWILIO_ACCOUNT_SID cfg) +:+ "/Messages.json")
             (shown (TWILIO_WHATSAPP_FROM cfg)) ("whatsapp:" +:+ phone) message
             (shown (TWILIO_ACCOUNT_SID cfg), shown (TWILIO_AUTH_TOKEN cfg)).

Definition meta_request (cfg : config) (phone message : string) : request :=
  MetaPost ("https://graph.facebook.com/v16.0/"
            +:+ shown (META_PHONE_NUMBER_ID cfg) +:+ "/messages")
           ("Bearer " +:+ shown (META_WABA_TOKEN cfg)) phone message.

(** What [send_whatsapp] returns once a provider was asked. *)
Definition verdict (answer : option (Z * string)) : result bool :=
  match answer with
  | Some resp => Ok (accepted resp.1)
  | None => Raise RequestException
  end.

(** Whether an evaluation returned. *)
Definition returned {A} (r : result A) : bool :=
  match r with
  | Ok _ => true
  | Raise _ => false
  end.

(** The phone of a recipient. *)
Definition cand_phone (c : candidate) : string := c.1.1.2.

(** A fresh state: no row, nothing done yet. *)
Definition fresh : world := World 0 ∅ [] [] [] 0.

(** Whether composing the recipient's message returns, found by running
    the composer in a fresh state. *)
Definition composes (cfg : config) (ext : external) (c : candidate) : bool :=
  returned (generate_personal_message cfg ext c.1.1.1 c.1.2 c.2 fresh).1.

(** What the [try] statement of one turn of the sending loop did, by the
    composer's and the sender's outcome. *)
Inductive turn (cfg : config) (ext : external) (yr : Z) (c : candidate) (cnt : Z)
    (w : world) : Z → world → Prop :=
| turn_compose_raised n w' :
    composes cfg ext c = false →
    n = cnt → sent w' = sent w → attempts w' = attempts w →
    turn cfg ext yr c cnt w n w'
| turn_not_sent n w' msg :
    composes cfg ext c = true →
    n = cnt → sent w' = sent w → attempts w' = attempts w ++ [(cand_phone c, msg)] →
    turn cfg ext yr c cnt w n w'
| turn_sent n w' msg t :
    composes cfg ext c = true →
    n = cnt + 1 →
    sent w' = <[(cand_phone c, yr) := (t, msg)]> (sent w) →
    attempts w' = attempts w ++ [(cand_phone c, msg)] →
    turn cfg ext yr c cnt w n w'.

(** The recipient a row stands for. *)
Definition candidate_of (ext : external) (cols : list string) (row : list pyval)
    : candidate :=
  (strip (text ext (row_get cols row "name" (PStr ""))),
   strip (text ext (row_get cols row "phone" (PStr ""))),
   row_get cols row "notes" PNone,
   row_get cols row "template" PNone).


(** Whether the row's birthday cell parses to a calendar date. *)
Definition parseable (ext : external) (cols : list string) (row : list pyval) : bool :=
  match parse_birthday ext (row_get cols row "birthday" PNone) with
  | Ok (Some (Stamp _)) => true
  | _ => false
  end.

(** At most one column carries the label. *)
Definition unique_label (cols : list string) (key : string) : Prop :=
  (length (positions cols key 0) ≤ 1)%nat.

(** The year under which a run started in [w] looks up and writes the
    store: the UTC year of its first clock reading. *)
Definition run_year (ext : external) (w : world) : Z := year (local_date ext utc (clock ext (ticks w))).

(** ** Scenarios used to exercise the theorems *)

(** Twilio configured, no OpenAI, a cap of two messages per run, a pause
    of 0.6 s. *)
Definition twilio_cfg : config :=
  Config (Some "AC1") (Some "token") (Some "whatsapp:+14150000000") None None
         None "gpt-4o-mini" true "contacts.xlsx" "contacts" 2 (FNanos 600000000).

(** The same with a pause of -1 s. *)
Definition hasty_cfg : config :=
  Config (Some "AC1") (Some "token") (Some "whatsapp:+14150000000") None None
         None "gpt-4o-mini" true "contacts.xlsx" "contacts" 2 (FNanos (-1000000000)).

(** Both providers configured. *)
Definition both_cfg : config :=
  Config (Some "AC1") (Some "token") (Some "whatsapp:+14150000000")
         (Some "EAAB") (Some "1066") None "gpt-4o-mini" true "contacts.xlsx" "contacts" 200
         (FNanos 600000000).

(** Only Meta configured (Twilio lacks its sender address). *)
Definition meta_cfg : config :=
  Config (Some "AC1") (Some "token") None
         (Some "EAAB") (Some "1066") None "gpt-4o-mini" true "contacts.xlsx" "contacts" 200
         (FNanos 600000000).

(** No provider configured. *)
Definition bare_cfg : config :=
  Config None None (Some "") None None None "gpt-4o-mini" true "contacts.xlsx" "contacts" 200
         (FNanos 600000000).

(** OpenAI configured. *)
Definition openai_cfg : config :=
  Config (Some "AC1") (Some "token") (Some "whatsapp:+14150000000") None None
         (Some "sk-test") "gpt-4o-mini" true "contacts.xlsx" "contacts" 200
         (FNanos 600000000).

(** A sheet with three rows: Bob (birthday as text), Ann (a date cell,
    Kolkata time) and Eve (a birthday that does not parse). *)
Definition sheet : dataframe :=
  DataFrame [PStr " Name"; PStr "Phone "; PStr "birthday"; PStr "timezone"; PStr "notes"]
    [ [PStr "Bob"; PStr "+447000"; PStr "1990-11-02"; PStr ""; PStr ""];
      [PStr "Ann"; PStr "+1555"; PDate (Date 1985 11 2); PStr "Asia/Kolkata"; PStr "loves tea"];
      [PStr "Eve"; PStr "+1777"; PStr "soon"; PStr ""; PStr ""] ].

(** An outside world on 2 November 2024 in every zone: one known zone,
    one parseable date text, the text NaT read as not-a-time, the first
    template always drawn, OpenAI failing, and every request accepted
    with 200. *)
Definition calm : external :=
  External (λ n, Z.of_nat n)
           (λ s, if String.eqb s "Asia/Kolkata" then Some s else None)
           (λ _ _, Date 2024 11 2)
           (λ _, "2024-11-02T06:00:00")
           (λ s, if String.eqb s "1990-11-02" then Some (Stamp (Date 1990 11 2))
                 else if String.eqb s "NaT" then Some NaT else None)
           (λ _, 0%nat)
           (λ _ _ _, None)
           (λ _ _, Some (200, "ok"))
           (λ _ _, Raise OtherError)
           (λ _ _, Some sheet)
           (λ _, "Series")
           TypeError.

(** The same world with a provider that rejects every request. *)
Definition rejecting : external :=
  External (clock calm) (pytz_timezone calm) (local_date calm) (isoformat calm)
           (to_datetime calm) (random_index calm) (chat_completion calm)
           (λ _ _, Some (500, "error")) (other_field calm) (read_excel calm)
           (series_text calm) (replace_on_date calm).

(** A state where +1555 was greeted in 2024. *)
Definition greeted : world :=
  World 0 {[ ("+1555", 2024) := ("2024-11-02T05:00:00", "Happy Birthday, Ann!") ]} [] [] [] 0.

(** The calm world with a sheet that has no phone column. *)
Definition headless : external :=
  External (clock calm) (pytz_timezone calm) (local_date calm) (isoformat calm)
           (to_datetime calm) (random_index calm) (chat_completion calm) (http_post calm)
           (other_field calm) (λ _ _, Some (DataFrame [PStr "Name"; PStr "Birthday "] []))
           (series_text calm) (replace_on_date calm).

(** The calm world with a sheet whose second header is a number. *)
Definition numbered : external :=
  External (clock calm) (pytz_timezone calm) (local_date calm) (isoformat calm)
           (to_datetime calm) (random_index calm) (chat_completion calm) (http_post calm)
           (other_field calm) (λ _ _, Some (DataFrame [PStr "name"; PInt 2024] []))
           (series_text calm) (replace_on_date calm).

(** The calm world with OpenAI answering; the reply starts with a
    no-break space and ends with an em space. *)
Definition chatty : external :=
  External (clock calm) (pytz_timezone calm) (local_date calm) (isoformat calm)
           (to_datetime calm) (random_index calm)
           (λ _ _ _, Some (bytes [194%nat; 160%nat] +:+ "Happy day, Ann!" +:+ bytes [226%nat; 128%nat; 131%nat]))
           (http_post calm) (other_field calm) (read_excel calm)
           (series_text calm) (replace_on_date calm).

(** The calm world with a sheet in which two columns come out labelled
    birthday. *)
Definition doubled : external :=
  External (clock calm) (pytz_timezone calm) (local_date calm) (isoformat calm)
           (to_datetime calm) (random_index calm) (chat_completion calm) (http_post calm)
           (other_field calm)
           (λ _ _, Some (DataFrame [PStr "name"; PStr "phone"; PStr "Birthday"; PStr "birthday "]
                           [ [PStr "Bob"; PStr "+447000"; PStr "1990-11-02"; PStr "1990-11-02"] ]))
           (series_text calm) (replace_on_date calm).

(** Recipients; composing for [ann_braces] raises on its notes. *)
Definition ann : candidate := ("Ann", "+1555", Scalar (PStr "loves tea"), Scalar PNone).
Definition ann_braces : candidate := ("Ann", "+1555", Scalar (PStr "{"), Scalar PNone).
Definition bob : candidate := ("Bob", "+447000", Scalar PNone, Scalar PNone).
Definition cy : candidate := ("Cy", "+1777", Scalar PNone, Scalar PNone).

(** ** Running the monad *)

Lemma run_bind {A B} (c : M A) (f : A → M B) (w : world) :
  (c ≫= f) w =
  match c w with
  | (Ok a, w') => f a w'
  | (Raise e, w') => (Raise e, w')
  end.
Proof. reflexivity. Qed.

Lemma run_try {A} (c : M A) (h : exn → M A) (w : world) :
  try_except c h w =
  match c w with
  | (Ok a, w') => (Ok a, w')
  | (Raise e, w') => h e w'
  end.
Proof. reflexivity. Qed.

(** Unfolds the effect primitives of a run. *)
Ltac run :=
  unfold utcnow, now, tick, log, note_attempt, note_post, sleep, lift, raise, upsert,
    try_except, try_pure, mbind, M_bind, result_bind, mret, M_ret, result_ret in *;
  simpl in *.

Lemma untouched_refl w : untouched w w.
Proof. by repeat split. Qed.

Lemma untouched_trans w1 w2 w3 : untouched w1 w2 → untouched w2 w3 → untouched w1 w3.
Proof. unfold untouched. intros (?&?&?&?) (?&?&?&?). repeat split; congruence. Qed.

Create HintDb bot.
#[local] Hint Resolve untouched_refl : bot.

(** ** The dedup store *)

Section Store.
Variable ext : external.

Lemma already_sent_run phone yr w :
  already_sent phone yr w = (Ok (bool_decide (is_Some (sent w !! (phone, yr)))), w).
Proof. reflexivity. Qed.

Lemma record_send_run phone yr message w :
  ∃ w', record_send ext phone yr message w = (Ok tt, w')
        ∧ sent w' = <[(phone, yr) := (isoformat ext (clock ext (ticks w)), message)]> (sent w)
        ∧ attempts w' = attempts w ∧ posts w' = posts w ∧ sleeps w' = sleeps w
        ∧ logs w' = logs w.
Proof. unfold record_send. run. eexists. split; [reflexivity|]. by simpl. Qed.

End Store.

(** ** Strings: literal text, the [{name}] field, and the builtin templates *)

#[local] Arguments String.append !_ _ / : simpl nomatch.
#[local] Arguments Ascii.eqb : simpl never.

Lemma append_assoc (a b c : string) : (a +:+ b) +:+ c = a +:+ (b +:+ c).
Proof. induction a; simpl; congruence. Qed.

Lemma append_empty_r (a : string) : a +:+ "" = a.
Proof. induction a; simpl; congruence. Qed.

Lemma emit_emit a b r : emit a (emit b r) = emit (a +:+ b) r.
Proof. destruct r; simpl; [by rewrite append_assoc|done]. Qed.

Lemma emit_empty r : emit "" r = r.
Proof. by destruct r. Qed.

Lemma no_brace_open a : no_brace a = true → no_open a = true.
Proof.
  induction a as [|c a IH]; simpl; [done|].
  destruct (Ascii.eqb c "{"); [done|]. destruct (Ascii.eqb c "}"); [done|]. exact IH.
Qed.

Lemma replace_from_literal n a s :
  no_open a = true →
  replace_from "{name}" n 0 (a +:+ s) = a +:+ replace_from "{name}" n 0 s.
Proof.
  induction a as [|c a IH]; simpl; intros H; [done|].
  rewrite (Ascii.eqb_sym "{" c).
  destruct (Ascii.eqb c "{") eqn:E1; [done|]. simpl in *. by rewrite IH.
Qed.

Lemma replace_from_plain n a s :
  no_brace a = true →
  replace_from "{name}" n 0 (a +:+ s) = a +:+ replace_from "{name}" n 0 s.
Proof. intros H. by apply replace_from_literal, no_brace_open. Qed.

Lemma replace_from_field n s :
  replace_from "{name}" n 0 ("{name}" +:+ s) = n +:+ replace_from "{name}" n 0 s.
Proof. reflexivity. Qed.

Lemma replace_around n pre post :
  no_brace pre = true → no_brace post = true →
  replace "{name}" n (pre +:+ "{name}" +:+ post) = pre +:+ n +:+ post.
Proof.
  intros Hpre Hpost. unfold replace.
  rewrite replace_from_plain, replace_from_field by done.
  rewrite <- (append_empty_r post) at 1.
  rewrite replace_from_plain by done. simpl. by rewrite append_empty_r.
Qed.

(** Text cut at every placeholder: joining the pieces with the name is
    what [replace] computes. *)
Lemma replace_join n pieces :
  Forall (λ p, no_open p = true) pieces →
  replace "{name}" n (String.concat "{name}" pieces) = String.concat n pieces.
Proof.
  unfold replace. induction 1 as [|p pieces Hp _ IH]; [done|].
  destruct pieces as [|q pieces].
  - simpl. rewrite <- (append_empty_r p) at 1.
    rewrite replace_from_literal by done. simpl. by rewrite append_empty_r.
  - change (String.concat "{name}" (p :: q :: pieces))
      with (p +:+ "{name}" +:+ String.concat "{name}" (q :: pieces)).
    change (String.concat n (p :: q :: pieces))
      with (p +:+ n +:+ String.concat n (q :: pieces)).
    by rewrite replace_from_literal, replace_from_field, IH.
Qed.

Section FormatFacts.
Variable o : string → string → result string.

Lemma format_from_plain name a s :
  no_brace a = true → format_from o name 0 (a +:+ s) = emit a (format_from o name 0 s).
Proof.
  induction a as [|c a IH]; simpl; intros H.
  - by rewrite emit_empty.
  - destruct (Ascii.eqb c "{") eqn:E1; [done|].
    destruct (Ascii.eqb c "}") eqn:E2; [done|]. simpl in H.
    rewrite IH by done. by rewrite emit_emit.
Qed.

Lemma format_from_field name s :
  format_from o name 0 ("{name}" +:+ s) = emit name (format_from o name 0 s).
Proof. reflexivity. Qed.

Lemma format_around name pre post rest :
  no_brace pre = true → no_brace post = true →
  format o ((pre +:+ "{name}" +:+ post) +:+ rest) name
  = emit (pre +:+ name +:+ post) (format o rest name).
Proof.
  intros Hpre Hpost. unfold format.
  rewrite !append_assoc, format_from_plain by done.
  rewrite (format_from_field name (post +:+ rest)), format_from_plain by done.
  by rewrite !emit_emit, !append_assoc.
Qed.

(** Every builtin template is literal text around one [{name}] field. *)
Lemma builtin_shape t :
  t ∈ builtin_templates →
  ∃ pre post, t = pre +:+ "{name}" +:+ post ∧ no_brace pre = true ∧ no_brace post = true.
Proof.
  unfold builtin_templates. intros Ht.
  repeat (apply elem_of_cons in Ht as [->|Ht]); [| | |by apply elem_of_nil in Ht].
  - exists "Happy Birthday, ", "! ðŸŽ‰ Wishing you a fantastic day filled with joy.".
    by vm_compute.
  - exists "Many happy returns, ", "! Hope you have a wonderful birthday.". by vm_compute.
  - exists "Happy Birthday ", "! May your day be full of fun and surprises.". by vm_compute.
Qed.

Lemma fallback_builtin t : t ∈ fallback_templates → t ∈ builtin_templates.
Proof.
  unfold fallback_templates, builtin_templates. intros Ht.
  repeat (apply elem_of_cons in Ht as [->|Ht]); [| |by apply elem_of_nil in Ht];
    set_solver.
Qed.

(** Formatting a builtin template followed by more text: the template's
    field is filled and the scan goes on in the text that follows. *)
Lemma format_builtin name t rest :
  t ∈ builtin_templates →
  format o (t +:+ rest) name = emit (replace "{name}" name t) (format o rest name).
Proof.
  intros (pre & post & -> & Hpre & Hpost)%builtin_shape.
  by rewrite format_around, replace_around.
Qed.

Lemma format_builtin_alone name t :
  t ∈ builtin_templates → format o t name = Ok (replace "{name}" name t).
Proof.
  intros Ht. rewrite <- (append_empty_r t) at 1.
  rewrite format_builtin by done. simpl. by rewrite append_empty_r.
Qed.

End FormatFacts.

(** ** The message composer *)

Section Compose.
Variable cfg : config.
Variable ext : external.

Lemma random_choice_run seq w :
  seq ≠ [] →
  ∃ t w', t ∈ seq ∧ random_choice ext seq w = (Ok t, w')
          ∧ untouched w w' ∧ logs w' = logs w.
Proof.
  intros Hne. unfold random_choice. run.
  destruct (seq !! _) as [t|] eqn:Hl.
  - exists t. eexists. split; [by eapply list_elem_of_lookup_2|].
    split; [reflexivity|]. by repeat split.
  - apply lookup_ge_None in Hl. destruct seq as [|t0 seq]; [done|].
    pose proof (Nat.mod_upper_bound (random_index ext (ticks w)) (length (t0 :: seq))).
    simpl in *. lia.
Qed.

(** A template that is set wins: the text is the template with the
    placeholder replaced, and nothing else happens. *)
Lemma generate_template name (notes : cell) (template : pyval) w :
  truthy template = true →
  generate_personal_message cfg ext name notes template w
  = (replace_name ext template name, w).
Proof.
  intros H. unfold generate_personal_message. rewrite run_bind. unfold lift at 1.
  simpl truth. by rewrite H.
Qed.

(** A Series in the place of the template raises at once. *)
Lemma generate_series_template name (notes : cell) vs w :
  generate_personal_message cfg ext name notes (Series vs) w = (Raise ValueError, w).
Proof. reflexivity. Qed.

(** Without a template and without OpenAI: a builtin template, the
    postscript appended, and only then the formatting. *)
Lemma generate_builtin name (notes template : pyval) w :
  truthy template = false →
  negb (configured (OPENAI_API_KEY cfg)) || negb (openai_imported cfg) = true →
  ∃ t w', t ∈ builtin_templates
    ∧ generate_personal_message cfg ext name notes template w
      = (format (other_field ext)
           (if truthy notes then t +:+ " PS: " +:+ str notes else t) name, w')
    ∧ untouched w w'.
Proof.
  intros Ht Hc. unfold generate_personal_message. rewrite run_bind. unfold lift at 1.
  simpl truth. rewrite Ht, Hc.
  rewrite run_bind. unfold log at 1.
  rewrite run_bind.
  match goal with |- context [random_choice ext ?s ?w0] =>
    destruct (random_choice_run s w0) as (t & w' & Hin & -> & Hu & _); [done|] end.
  exists t, w'. split; [done|]. split; [done|].
  eapply untouched_trans; [|exact Hu]. by repeat split.
Qed.

(** With OpenAI configured and the call failing: one of the two fallback
    templates with the name filled in; the notes play no part. *)
Lemma generate_fallback name (notes template : pyval) w :
  truthy template = false →
  negb (configured (OPENAI_API_KEY cfg)) || negb (openai_imported cfg) = false →
  chat_completion ext (ticks w) (OPENAI_MODEL cfg) (prompt_for name notes) = None →
  ∃ t w', t ∈ fallback_templates
    ∧ generate_personal_message cfg ext name notes template w
      = (Ok (replace "{name}" name t), w')
    ∧ untouched w w'.
Proof.
  intros Ht Hc Hfail. unfold generate_personal_message. rewrite run_bind. unfold lift at 1.
  simpl truth. rewrite Ht, Hc.
  rewrite run_try. unfold openai_reply. rewrite run_bind. unfold tick at 1.
  rewrite Hfail. unfold raise. rewrite run_bind. unfold log at 1. rewrite run_bind.
  match goal with |- context [random_choice ext ?s ?w0] =>
    destruct (random_choice_run s w0) as (t & w' & Hin & -> & Hu & _); [done|] end.
  exists t, w'. split; [done|]. unfold lift.
  rewrite format_builtin_alone by by apply fallback_builtin.
  split; [done|]. eapply untouched_trans; [|exact Hu]. by repeat split.
Qed.

(** With OpenAI configured and answering: the reply, stripped. *)
Lemma generate_openai name (notes template : pyval) w content :
  truthy template = false →
  negb (configured (OPENAI_API_KEY cfg)) || negb (openai_imported cfg) = false →
  chat_completion ext (ticks w) (OPENAI_MODEL cfg) (prompt_for name notes) = Some content →
  ∃ w', generate_personal_message cfg ext name notes template w = (Ok (strip content), w')
        ∧ untouched w w'.
Proof.
  intros Ht Hc Hok. unfold generate_personal_message. rewrite run_bind. unfold lift at 1.
  simpl truth. rewrite Ht, Hc.
  rewrite run_try. unfold openai_reply. rewrite run_bind. unfold tick at 1.
  rewrite Hok. eexists. split; [reflexivity|]. by repeat split.
Qed.

(** With no template, a Series in the place of the notes raises. *)
Lemma generate_series_notes name vs (template : pyval) w :
  truthy template = false →
  ∃ w', generate_personal_message cfg ext name (Series vs) template w
        = (Raise ValueError, w')
        ∧ untouched w w'.
Proof.
  intros Ht. unfold generate_personal_message. rewrite run_bind. unfold lift at 1.
  simpl truth. rewrite Ht.
  destruct (negb (configured (OPENAI_API_KEY cfg)) || negb (openai_imported cfg)).
  - rewrite run_bind. unfold log at 1. rewrite run_bind.
    match goal with |- context [random_choice ext ?s ?w0] =>
      destruct (random_choice_run s w0) as (t & w' & Hin & -> & Hu & _); [done|] end.
    exists w'. split; [done|]. eapply untouched_trans; [|exact Hu]. by repeat split.
  - exists w. split; [done|]. apply untouched_refl.
Qed.

(** Composing never writes the store, calls the sender, posts or sleeps. *)
Lemma generate_untouched name (notes template : cell) w :
  untouched w (generate_personal_message cfg ext name notes template w).2.
Proof.
  destruct template as [template|vs]; [|apply untouched_refl].
  destruct (truthy template) eqn:Ht.
  { rewrite generate_template by done. apply untouched_refl. }
  destruct notes as [notes|vs].
  2: { by destruct (generate_series_notes name vs template w Ht) as (w' & -> & Hu). }
  destruct (negb (configured (OPENAI_API_KEY cfg)) || negb (openai_imported cfg)) eqn:Hc.
  { destruct (generate_builtin name notes template w Ht Hc) as (t & w' & _ & -> & Hu). done. }
  destruct (chat_completion ext (ticks w) (OPENAI_MODEL cfg) (prompt_for name notes)) eqn:Hr.
  - destruct (generate_openai name notes template w _ Ht Hc Hr) as (w' & -> & Hu). done.
  - destruct (generate_fallback name notes template w Ht Hc Hr) as (t & w' & _ & -> & Hu). done.
Qed.

(** Whether composing returns does not depend on the state it starts in:
    not on the template drawn, nor on what OpenAI answers. *)
Lemma generate_returns name phone (notes template : cell) w :
  returned (generate_personal_message cfg ext name notes template w).1
  = composes cfg ext (name, phone, notes, template).
Proof.
  unfold composes. cbn [fst snd].
  destruct template as [template|vs]; [|done].
  destruct (truthy template) eqn:Ht.
  { by rewrite !generate_template by done. }
  destruct notes as [notes|vs].
  2: { destruct (generate_series_notes name vs template w Ht) as (w' & -> & _).
       by destruct (generate_series_notes name vs template fresh Ht) as (w0 & -> & _). }
  destruct (negb (configured (OPENAI_API_KEY cfg)) || negb (openai_imported cfg)) eqn:Hc.
  { destruct (generate_builtin name notes template w Ht Hc) as (t & w' & Hin & -> & _).
    destruct (generate_builtin name notes template fresh Ht Hc) as (t0 & w0 & Hin0 & -> & _).
    cbn [fst]. destruct (truthy notes).
    - rewrite (format_builtin _ name t), (format_builtin _ name t0) by done.
      by destruct (format (other_field ext) (" PS: " +:+ str notes) name).
    - by rewrite !format_builtin_alone by done. }
  assert (Hany : ∀ w1, returned (generate_personal_message cfg ext name notes template w1).1
                       = true).
  { intros w1.
    destruct (chat_completion ext (ticks w1) (OPENAI_MODEL cfg) (prompt_for name notes))
      eqn:Hr.
    - by destruct (generate_openai name notes template w1 _ Ht Hc Hr) as (w' & -> & _).
    - by destruct (generate_fallback name notes template w1 Ht Hc Hr)
        as (t & w' & _ & -> & _). }
  by rewrite !Hany.
Qed.

End Compose.
(** ** The notification sender *)

Section Sender.
Variable cfg : config.
Variable ext : external.

Lemma send_twilio phone message w :
  configured (TWILIO_ACCOUNT_SID cfg) && configured (TWILIO_AUTH_TOKEN cfg)
    && configured (TWILIO_WHATSAPP_FROM cfg) = true →
  ∃ w', send_whatsapp cfg ext phone message w
        = (verdict (http_post ext (ticks w) (twilio_request cfg phone message)), w')
      ∧ posts w' = posts w ++ [twilio_request cfg phone message]
      ∧ attempts w' = attempts w ++ [(phone, message)]
      ∧ sent w' = sent w ∧ sleeps w' = sleeps w.
Proof.
  intros H. unfold send_whatsapp, send_whatsapp_twilio. rewrite H.
  change (TwilioPost _ _ _ _ _) with (twilio_request cfg phone message).
  generalize (twilio_request cfg phone message) as req. intros req. unfold post. run.
  destruct (http_post ext (ticks w) req) as [[st body]|]; simpl.
  - destruct (accepted st); eexists; (split; [reflexivity|]); by simpl.
  - eexists; (split; [reflexivity|]); by simpl.
Qed.

Lemma send_meta phone message w :
  configured (TWILIO_ACCOUNT_SID cfg) && configured (TWILIO_AUTH_TOKEN cfg)
    && configured (TWILIO_WHATSAPP_FROM cfg) = false →
  configured (META_WABA_TOKEN cfg) && configured (META_PHONE_NUMBER_ID cfg) = true →
  ∃ w', send_whatsapp cfg ext phone message w
        = (verdict (http_post ext (ticks w) (meta_request cfg phone message)), w')
      ∧ posts w' = posts w ++ [meta_request cfg phone message]
      ∧ attempts w' = attempts w ++ [(phone, message)]
      ∧ sent w' = sent w ∧ sleeps w' = sleeps w.
Proof.
  intros H1 H2. unfold send_whatsapp, send_whatsapp_meta. rewrite H1, H2.
  change (MetaPost _ _ _ _) with (meta_request cfg phone message).
  generalize (meta_request cfg phone message) as req. intros req. unfold post. run.
  destruct (http_post ext (ticks w) req) as [[st body]|]; simpl.
  - destruct (accepted st); eexists; (split; [reflexivity|]); by simpl.
  - eexists; (split; [reflexivity|]); by simpl.
Qed.

Lemma send_unconfigured phone message w :
  configured (TWILIO_ACCOUNT_SID cfg) && configured (TWILIO_AUTH_TOKEN cfg)
    && configured (TWILIO_WHATSAPP_FROM cfg) = false →
  configured (META_WABA_TOKEN cfg) && configured (META_PHONE_NUMBER_ID cfg) = false →
  ∃ w', send_whatsapp cfg ext phone message w = (Ok false, w')
      ∧ posts w' = posts w
      ∧ logs w' = logs w ++ [LogError "No WhatsApp provider configured." []]
      ∧ attempts w' = attempts w ++ [(phone, message)]
      ∧ sent w' = sent w ∧ sleeps w' = sleeps w ∧ ticks w' = ticks w.
Proof.
  intros H1 H2. unfold send_whatsapp. rewrite H1, H2. run.
  eexists; (split; [reflexivity|]); by simpl.
Qed.

(** Whatever the configuration and the provider's answer: one call is
    noted, the store is not written, and at most one request goes out. *)
Lemma send_whatsapp_effects phone message w :
  let w' := (send_whatsapp cfg ext phone message w).2 in
  attempts w' = attempts w ++ [(phone, message)]
  ∧ sent w' = sent w ∧ sleeps w' = sleeps w
  ∧ ∃ l, posts w' = posts w ++ l ∧ (length l ≤ 1)%nat.
Proof.
  destruct (configured (TWILIO_ACCOUNT_SID cfg) && configured (TWILIO_AUTH_TOKEN cfg)
            && configured (TWILIO_WHATSAPP_FROM cfg)) eqn:H1.
  { destruct (send_twilio phone message w H1) as (w' & -> & Hp & Ha & Hs & Hz); simpl.
    repeat split; try done. eexists. split; [exact Hp|]. simpl. lia. }
  destruct (configured (META_WABA_TOKEN cfg) && configured (META_PHONE_NUMBER_ID cfg)) eqn:H2.
  { destruct (send_meta phone message w H1 H2) as (w' & -> & Hp & Ha & Hs & Hz); simpl.
    repeat split; try done. eexists. split; [exact Hp|]. simpl. lia. }
  destruct (send_unconfigured phone message w H1 H2) as (w' & -> & Hp & _ & Ha & Hs & Hz & _).
  simpl. repeat split; try done. exists []. rewrite app_nil_r. split; [done|]. simpl. lia.
Qed.

End Sender.

(** ** The Sending stage *)

Section Sending.
Variable cfg : config.
Variable ext : external.

Lemma deliver_run yr cnt name phone notes template w :
  deliver cfg ext yr cnt (name, phone, notes, template) w =
  match generate_personal_message cfg ext name notes template w with
  | (Raise e, w1) => (Raise e, w1)
  | (Ok msg, w1) =>
      match send_whatsapp cfg ext phone msg w1 with
      | (Raise e, w2) => (Raise e, w2)
      | (Ok false, w2) =>
          (Ok cnt,
           World (ticks w2) (sent w2) (attempts w2) (posts w2)
                 (logs w2 ++ [LogError "Failed to send to %s (%s)." [name; phone]])
                 (sleeps w2))
      | (Ok true, w2) =>
          (Ok (cnt + 1),
           World (S (ticks w2))
                 (<[(phone, yr) := (isoformat ext (clock ext (ticks w2)), msg)]> (sent w2))
                 (attempts w2) (posts w2)
                 (logs w2 ++ [LogInfo "Sent to %s (%s)." [name; phone]])
                 (sleeps w2))
      end
  end.
Proof.
  unfold deliver. rewrite run_bind.
  destruct (generate_personal_message cfg ext name notes template w) as [[msg|e] w1]; [|done].
  rewrite run_bind.
  destruct (send_whatsapp cfg ext phone msg w1) as [[[|]|e] w2]; [| |done].
  - unfold record_send. by run.
  - by run.
Qed.

(** The [try] statement of a turn never raises and never pauses. *)
Lemma guarded_run yr cnt c w :
  ∃ n w', guarded_deliver cfg ext yr cnt c w = (Ok n, w')
          ∧ sleeps w' = sleeps w ∧ turn cfg ext yr c cnt w n w'.
Proof.
  destruct c as [[[name phone] notes] template].
  unfold guarded_deliver. rewrite run_try, deliver_run.
  pose proof (generate_untouched cfg ext name notes template w) as Hg.
  pose proof (generate_returns cfg ext name phone notes template w) as Hret.
  destruct (generate_personal_message cfg ext name notes template w) as [[msg|e] w1];
    simpl in Hg, Hret; destruct Hg as (Hs1 & Ha1 & Hp1 & Hz1).
  - pose proof (send_whatsapp_effects cfg ext phone msg w1) as Hs.
    destruct (send_whatsapp cfg ext phone msg w1) as [[[|]|e] w2];
      simpl in Hs; destruct Hs as (Ha2 & Hs2 & Hz2 & _); run;
      eexists _, _; (split; [reflexivity|]); simpl; (split; [congruence|]).
    + eapply turn_sent; simpl; [done|done| |]; unfold cand_phone; simpl;
        [by rewrite Hs2, Hs1|]. by rewrite Ha2, Ha1.
    + eapply turn_not_sent; simpl; [done|done|congruence|]. unfold cand_phone; simpl.
      by rewrite Ha2, Ha1.
    + eapply turn_not_sent; simpl; [done|done|congruence|]. unfold cand_phone; simpl.
      by rewrite Ha2, Ha1.
  - run. eexists _, _; (split; [reflexivity|]); simpl; (split; [congruence|]).
    by eapply turn_compose_raised.
Qed.

(** A turn is its [try] statement followed by the pause, which is where
    it can raise. *)
Lemma send_to_run yr cnt c w :
  ∃ n w1,
    guarded_deliver cfg ext yr cnt c w = (Ok n, w1)
    ∧ sleeps w1 = sleeps w ∧ turn cfg ext yr c cnt w n w1
    ∧ send_to cfg ext yr cnt c w
      = match sleep_check (SEND_DELAY_SECONDS cfg) with
        | Ok _ =>
            (Ok n, World (ticks w1) (sent w1) (attempts w1) (posts w1) (logs w1)
                         (S (sleeps w1)))
        | Raise e => (Raise e, w1)
        end.
Proof.
  destruct (guarded_run yr cnt c w) as (n & w1 & Hg & Hz & Ht).
  exists n, w1. split; [done|]. split; [done|]. split; [done|].
  unfold send_to. rewrite run_bind, Hg, run_bind. unfold sleep.
  by destruct (sleep_check (SEND_DELAY_SECONDS cfg)).
Qed.

(** What a turn's [try] statement leaves of the store and the calls. *)
Lemma turn_frame yr c cnt w n w' :
  turn cfg ext yr c cnt w n w' →
  ∃ l, attempts w' = attempts w ++ l
       ∧ l.*1 = (if composes cfg ext c then [cand_phone c] else [])
       ∧ cnt ≤ n ≤ cnt + Z.of_nat (length l)
       ∧ (n = cnt → sent w' = sent w)
       ∧ (∀ k, k ∉ ((λ p, (p, yr)) <$> l.*1) → sent w' !! k = sent w !! k)
       ∧ (∀ k row, sent w' !! k = Some row →
            sent w !! k = Some row ∨ ∃ p, k = (p, yr) ∧ (p, row.2) ∈ l)
       ∧ (∀ k, is_Some (sent w !! k) → is_Some (sent w' !! k)).
Proof.
  intros [? ? Hc -> Hs Ha | ? ? msg Hc -> Hs Ha | ? ? msg t Hc -> Hs Ha]; rewrite Hc.
  - exists []. rewrite app_nil_r. simpl. rewrite Hs.
    repeat split; try done; try lia. by left.
  - exists [(cand_phone c, msg)]. simpl. rewrite Hs.
    repeat split; try done; try lia. by left.
  - exists [(cand_phone c, msg)]. simpl. rewrite Hs.
    split; [done|]. split; [done|]. split; [lia|]. split; [lia|]. split; [|split].
    + intros k Hk. apply not_elem_of_cons in Hk as [Hne _]. by apply lookup_insert_ne.
    + intros k row Hk. destruct (decide (k = (cand_phone c, yr))) as [->|Hne].
      * rewrite lookup_insert_eq in Hk. simplify_eq. right.
        exists (cand_phone c). split; [done|]. simpl. by apply elem_of_cons; left.
      * rewrite lookup_insert_ne in Hk by done. by left.
    + intros k Hk. destruct (decide (k = (cand_phone c, yr))) as [->|Hne].
      * rewrite lookup_insert_eq. eauto.
      * by rewrite lookup_insert_ne.
Qed.

(** The loop over any list of recipients, whatever the pause setting:
    the noted sender calls follow the order of the list, the store
    changes only under the keys of phones the sender was called for, to
    messages it was given, and no row is removed. *)
Lemma send_loop yr cands : ∀ cnt w,
  ∃ r w' l,
    for_each (send_to cfg ext yr) cands cnt w = (r, w')
    ∧ attempts w' = attempts w ++ l
    ∧ l.*1 `sublist_of` (cand_phone <$> cands)
    ∧ (∀ k, k ∉ ((λ p, (p, yr)) <$> l.*1) → sent w' !! k = sent w !! k)
    ∧ (∀ k row, sent w' !! k = Some row →
         sent w !! k = Some row ∨ ∃ p, k = (p, yr) ∧ (p, row.2) ∈ l)
    ∧ (∀ k, is_Some (sent w !! k) → is_Some (sent w' !! k)).
Proof.
  induction cands as [|c cands IH]; intros cnt w.
  - exists (Ok cnt), w, []. simpl. rewrite app_nil_r.
    split; [done|]. split; [done|]. split; [apply sublist_nil_l|].
    split; [done|]. split; [by left|done].
  - simpl. rewrite run_bind.
    destruct (send_to_run yr cnt c w) as (n1 & w1 & _ & _ & Ht & ->).
    destruct (turn_frame yr c cnt w n1 w1 Ht) as (l1 & Ha1 & Hl1 & _ & _ & Hfr1 & Hm1 & Hk1).
    assert (Hsub1 : l1.*1 `sublist_of` [cand_phone c]).
    { rewrite Hl1. destruct (composes cfg ext c); [done|apply sublist_nil_l]. }
    destruct (sleep_check (SEND_DELAY_SECONDS cfg)) as [[]|e].
    + match goal with |- context [for_each _ cands n1 ?w2] =>
        destruct (IH n1 w2) as (r & w' & l & -> & Ha & Hsub & Hfr & Hm & Hk) end.
      simpl in Ha, Hfr, Hm, Hk.
      exists r, w', (l1 ++ l). split; [done|].
      split; [by rewrite Ha, Ha1, app_assoc|].
      split. { rewrite fmap_app. exact (sublist_app _ [cand_phone c] _ _ Hsub1 Hsub). }
      split; [|split].
      * intros k Hnot. rewrite !fmap_app in Hnot. apply not_elem_of_app in Hnot as [H1 H2].
        rewrite Hfr by done. by apply Hfr1.
      * intros k row Hrow. destruct (Hm k row Hrow) as [Hold|(p & -> & Hp)].
        -- destruct (Hm1 k row Hold) as [?|(p & -> & Hp)]; [by left|right].
           exists p. split; [done|]. apply elem_of_app. by left.
        -- right. exists p. split; [done|]. apply elem_of_app. by right.
      * intros k Hsome. by apply Hk, Hk1.
    + exists (Raise e), w1, l1. split; [done|]. split; [done|].
      split. { etrans; [exact Hsub1|]. simpl. apply sublist_skip, sublist_nil_l. }
      split; [done|]. split; [done|done].
Qed.

(** With a pause setting [time.sleep] accepts, the loop never raises and
    gives every recipient a turn; the sender is called exactly for those
    whose message composes, in the order of the list. *)
Lemma send_loop_paced yr cands :
  sleep_check (SEND_DELAY_SECONDS cfg) = Ok tt →
  ∀ cnt w,
  ∃ n w' l,
    for_each (send_to cfg ext yr) cands cnt w = (Ok n, w')
    ∧ sleeps w' = (sleeps w + length cands)%nat
    ∧ attempts w' = attempts w ++ l
    ∧ l.*1 = cand_phone <$> filter (λ c, composes cfg ext c = true) cands
    ∧ cnt ≤ n ≤ cnt + Z.of_nat (length l)
    ∧ (n = cnt → sent w' = sent w).
Proof.
  intros Hd. induction cands as [|c cands IH]; intros cnt w.
  - exists cnt, w, []. simpl. rewrite app_nil_r.
    split; [done|]. split; [lia|]. split; [done|]. split; [done|]. split; [simpl; lia|done].
  - simpl. rewrite run_bind.
    destruct (send_to_run yr cnt c w) as (n1 & w1 & _ & Hz1 & Ht & ->). rewrite Hd.
    destruct (turn_frame yr c cnt w n1 w1 Ht) as (l1 & Ha1 & Hl1 & Hn1 & Hsame1 & _).
    match goal with |- context [for_each _ cands n1 ?w2] =>
      destruct (IH n1 w2) as (n & w' & l & -> & Hz & Ha & Hl & Hn & Hsame) end.
    simpl in Hz, Ha, Hsame.
    exists n, w', (l1 ++ l). split; [done|]. split; [lia|].
    split; [by rewrite Ha, Ha1, app_assoc|].
    split. { rewrite fmap_app, Hl1, Hl, filter_cons.
             destruct (composes cfg ext c) eqn:Hc.
             - by rewrite decide_True by done.
             - by rewrite decide_False by done. }
    split; [rewrite length_app; lia|].
    intros ->. rewrite Hsame by lia. apply Hsame1. lia.
Qed.

(** With a pause setting [time.sleep] refuses, the loop ends with that
    exception right after the first recipient's [try] statement. *)
Lemma send_loop_abort yr c cands cnt w e :
  sleep_check (SEND_DELAY_SECONDS cfg) = Raise e →
  for_each (send_to cfg ext yr) (c :: cands) cnt w
  = (Raise e, (guarded_deliver cfg ext yr cnt c w).2).
Proof.
  intros Hd. simpl. rewrite run_bind.
  destruct (send_to_run yr cnt c w) as (n1 & w1 & -> & _ & _ & ->). by rewrite Hd.
Qed.

End Sending.
(** ** Date utilities and the Filtering stage *)

Section Filtering.
Variable cfg : config.
Variable ext : external.

(** Under a label that at most one column carries, [row.get] gives a
    scalar. *)
Lemma row_get_scalar cols row key default :
  unique_label cols key → ∃ v, row_get cols row key default = Scalar v.
Proof.
  unfold unique_label, row_get. intros H.
  destruct (positions cols key 0) as [|i [|j hits]]; simpl in H; [eauto|eauto|lia].
Qed.

(** On a scalar [parse_birthday] has no failing path. *)
Lemma parse_birthday_scalar (v : pyval) : ∃ o, parse_birthday ext v = Ok o.
Proof.
  unfold parse_birthday, to_date. destruct v; simpl; eauto;
    run; destruct (to_datetime ext _); simpl; eauto.
Qed.


(** On any cell: a value, or the [ValueError] of a Series. *)
Lemma parse_birthday_cases (c : cell) :
  (∃ vs, c = Series vs ∧ parse_birthday ext c = Raise ValueError)
  ∨ (∃ v o, c = Scalar v ∧ parse_birthday ext c = Ok o).
Proof.
  destruct c as [v|vs]; [right|left; eauto].
  destruct (parse_birthday_scalar v) as [o Ho]. eauto.
Qed.

(** The zone [is_birthday_today] looks at for a scalar zone value, and
    its answer there. *)
Lemma is_birthday_today_run (bday : stamp) (tz_name : pyval) w :
  ∃ tz w',
    is_birthday_today ext bday tz_name w
    = (Ok (same_day bday (local_date ext tz (clock ext (ticks w)))), w')
    ∧ untouched w w' ∧ logs w' = logs w ∧ ticks w' = S (ticks w)
    ∧ (truthy tz_name = false → tz = utc)
    ∧ (∀ s, tz_name = PStr s → pytz_timezone ext s = None → tz = utc)
    ∧ (∀ s z, tz_name = PStr s → s ≠ "" → pytz_timezone ext s = Some z → tz = z)
    ∧ ((∀ s, tz_name ≠ PStr s) → tz = utc).
Proof.
  unfold is_birthday_today, timezone_of, truth. destruct (truthy tz_name) eqn:Ht.
  - destruct tz_name as [| |s|n|d]; try done; run; rewrite ?Ht; run.
    2: { destruct (pytz_timezone ext s) as [z|] eqn:Hz; run.
         - exists z. eexists. split; [reflexivity|]. simpl.
           repeat split; try done.
           + intros s' [= <-] ?. congruence.
           + intros s' z' [= <-] _ ?. congruence.
           + intros Hs. by destruct (Hs s).
         - exists utc. eexists. split; [reflexivity|]. simpl.
           repeat split; try done.
           + intros s' z' [= <-] _ ?. congruence.  }
    all: exists utc; eexists; (split; [reflexivity|]); simpl; by repeat split.
  - run. rewrite ?Ht. run. exists utc. eexists. split; [reflexivity|]. simpl.
    repeat split; try done.
    intros s z -> Hne. simpl in Ht. apply negb_false_iff, String.eqb_eq in Ht. done.
Qed.


(** A Series as zone value raises where its truth value is asked for. *)
Lemma is_birthday_today_series (bday : stamp) vs w :
  is_birthday_today ext bday (Series vs) w = (Raise ValueError, w).
Proof. unfold is_birthday_today. by run. Qed.

(** The flag the filtering loop computes for a row: the [try] with its
    handler never raises, reads the clock once, and is false for [NaT]. *)
Lemma flag_run (bday : stamp) (timezone : cell) w :
  ∃ f w',
    try_except (is_birthday_today ext bday timezone)
               (fun _ => is_birthday_today ext bday PNone) w = (Ok f, w')
    ∧ untouched w w' ∧ logs w' = logs w ∧ ticks w' = S (ticks w)
    ∧ (bday = NaT → f = false)
    ∧ (∀ v, timezone = Scalar v →
         is_birthday_today ext bday timezone w = (Ok f, w')).
Proof.
  rewrite run_try. destruct timezone as [v|vs].
  - destruct (is_birthday_today_run bday v w) as (tz & w' & -> & Hu & Hl & Ht & _).
    eexists _, w'. split; [done|]. split; [done|]. split; [done|]. split; [done|].
    split; [by intros ->|]. by intros v' _.
  - rewrite is_birthday_today_series.
    destruct (is_birthday_today_run bday PNone w) as (tz & w' & -> & Hu & Hl & Ht & _).
    eexists _, w'. split; [done|]. split; [done|]. split; [done|]. split; [done|].
    split; [by intros ->|]. by intros v' [=].
Qed.



(** One turn of the filtering loop: it raises only on a Series in the
    birthday cell; otherwise the list stays, or grows by the row's
    recipient, and then only for a parsed birthday that matched today and
    a phone without a record for the year. *)
Lemma consider_run cols yr acc row w :
  ∃ r w',
    consider ext cols yr acc row w = (r, w') ∧ untouched w w'
    ∧ ((r = Raise ValueError
        ∧ ∃ vs, row_get cols row "birthday" PNone = Series vs)
       ∨ r = Ok acc
       ∨ (r = Ok (acc ++ [candidate_of ext cols row])
          ∧ sent w !! (cand_phone (candidate_of ext cols row), yr) = None
          ∧ ∃ b, parse_birthday ext (row_get cols row "birthday" PNone) = Ok (Some b)
                 ∧ b ≠ NaT)).
Proof.
  unfold consider. rewrite run_bind. unfold lift.
  destruct (parse_birthday_cases (row_get cols row "birthday" PNone))
    as [(vs & Hc & Ho)|(v & [b|] & Hc & Ho)]; rewrite Ho.
  - eexists _, _. split; [done|]. split; [apply untouched_refl|]. left. eauto.
  - rewrite run_bind.
    destruct (flag_run b (row_get cols row "timezone" PNone) w)
      as ([|] & w1 & -> & Hu & _ & _ & Hnat & _).
    + rewrite run_bind, already_sent_run.
      destruct Hu as (Hs & Ha & Hp & Hz).
      case_bool_decide as Hdup.
      * run. eexists _, _. split; [done|]. split; [by repeat split|]. right. by left.
      * run. eexists _, _. split; [done|]. split; [by repeat split|]. right. right.
        split; [done|]. split.
        -- rewrite Hs in Hdup. by apply eq_None_not_Some.
        -- exists b. split; [done|]. intros ->. by specialize (Hnat eq_refl).
    + run. eexists _, _. split; [done|]. split; [done|]. right. by left.
  - run. eexists _, _. split; [done|]. split; [apply untouched_refl|]. right. by left.
Qed.

(** The loop over the rows: whatever it ends with, it changes nothing
    but the clock reading count and the log; the list it yields holds, in
    row order, recipients without a record for the year; and it yields
    one when at most one column is labelled birthday. *)
Lemma filter_loop cols yr rws : ∀ acc w,
  ∃ r w',
    for_each (consider ext cols yr) rws acc w = (r, w')
    ∧ untouched w w'
    ∧ (∀ out, r = Ok out →
         ∃ new, out = acc ++ new
                ∧ new `sublist_of` (candidate_of ext cols <$> rws)
                ∧ Forall (λ c, sent w !! (cand_phone c, yr) = None) new)
    ∧ (unique_label cols "birthday" → ∃ out, r = Ok out).
Proof.
  induction rws as [|row rws IH]; intros acc w.
  - exists (Ok acc), w. simpl. split; [done|]. split; [apply untouched_refl|]. split.
    + intros out [= <-]. exists []. by rewrite app_nil_r.
    + eauto.
  - simpl. rewrite run_bind.
    destruct (consider_run cols yr acc row w) as (r1 & w1 & -> & Hu1 & Hcase).
    assert (Hs : sent w1 = sent w) by apply Hu1.
    destruct Hcase as [(-> & vs & Hvs)|[->|(-> & Hnone & _)]].
    + exists (Raise ValueError), w1. split; [done|]. split; [done|].
      split; [by intros out [=]|].
      intros Hun. destruct (row_get_scalar cols row "birthday" PNone Hun) as [v Hv].
      congruence.
    + destruct (IH acc w1) as (r & w' & -> & Hu & Hout & Htot).
      exists r, w'. split; [done|]. split; [by eapply untouched_trans|].
      split; [|done]. intros out Hr. destruct (Hout out Hr) as (new & -> & Hsub & Hall).
      exists new. split; [done|]. split; [by apply sublist_cons|]. by rewrite <- Hs.
    + destruct (IH (acc ++ [candidate_of ext cols row]) w1) as (r & w' & -> & Hu & Hout & Htot).
      exists r, w'. split; [done|]. split; [by eapply untouched_trans|].
      split; [|done]. intros out Hr. destruct (Hout out Hr) as (new & -> & Hsub & Hall).
      exists (candidate_of ext cols row :: new). rewrite <- app_assoc. split; [done|].
      split; [by apply sublist_skip|]. constructor; [done|]. by rewrite <- Hs.
Qed.

(** The Filtering stage, seen from outside. *)
Lemma filtering_run cols yr rws w :
  ∃ r w',
    filtering ext cols yr rws w = (r, w')
    ∧ untouched w w'
    ∧ (∀ to_send, r = Ok to_send →
         to_send `sublist_of` (candidate_of ext cols <$> rws)
         ∧ Forall (λ c, sent w !! (cand_phone c, yr) = None) to_send)
    ∧ (unique_label cols "birthday" → ∃ to_send, r = Ok to_send).
Proof.
  unfold filtering.
  destruct (filter_loop cols yr rws [] w) as (r & w' & Hrun & Hu & Hout & Htot).
  exists r, w'. split; [done|]. split; [done|]. split; [|done].
  intros to_send Hr. by destruct (Hout to_send Hr) as (new & -> & Hsub & Hall).
Qed.


(** A row that parses, matches and has no record is appended. *)
Lemma consider_eligible cols yr acc row (b : stamp) w :
  parse_birthday ext (row_get cols row "birthday" PNone) = Ok (Some b) →
  (is_birthday_today ext b (row_get cols row "timezone" PNone) w).1 = Ok true →
  sent w !! (cand_phone (candidate_of ext cols row), yr) = None →
  consider ext cols yr acc row w
  = (Ok (acc ++ [candidate_of ext cols row]),
     (is_birthday_today ext b (row_get cols row "timezone" PNone) w).2).
Proof.
  intros Hp Hm Hnone. unfold cand_phone, candidate_of in Hnone. cbn [fst snd] in Hnone.
  unfold consider. rewrite run_bind. unfold lift at 1. rewrite Hp.
  rewrite run_bind, run_try.
  destruct (row_get cols row "timezone" PNone) as [v|vs];
    [|by rewrite is_birthday_today_series in Hm].
  destruct (is_birthday_today_run b v w) as (tz & w1 & Hrun & Hu & _).
  rewrite Hrun in Hm |- *. cbn [fst snd] in Hm |- *. injection Hm as ->.
  rewrite run_bind, already_sent_run.
  assert (Hs1 : sent w1 = sent w) by apply Hu.
  rewrite bool_decide_eq_false_2 by (rewrite Hs1, Hnone; by intros [? ?]).
  done.
Qed.

End Filtering.
(** ** The whole run *)

Section Run.
Variable cfg : config.
Variable ext : external.

Lemma slice_to_sublist {A} (l : list A) n : slice_to l n `sublist_of` l.
Proof. unfold slice_to. destruct (0 <=? n); apply sublist_take. Qed.

Lemma slice_to_cap {A} (l : list A) n :
  0 ≤ n → slice_to l n = take (Z.to_nat n) l.
Proof. intros H. unfold slice_to. by rewrite (proj2 (Z.leb_le 0 n) H). Qed.

(** Header normalisation: string labels are stripped and lower-cased. *)
Lemma normalise_all_strings (ss : list string) :
  normalise_all (PStr <$> ss) = Ok ((λ c, lower (strip c)) <$> ss).
Proof.
  induction ss as [|s ss IH]; [done|].
  change (PStr <$> s :: ss) with (PStr s :: (PStr <$> ss)).
  cbn [normalise_all normalise]. by rewrite IH.
Qed.

(** It yields labels exactly when every label is a string, and raises
    [AttributeError] otherwise. *)
Lemma normalise_all_cases (cs : list pyval) :
  (∃ ss, cs = PStr <$> ss ∧ normalise_all cs = Ok ((λ c, lower (strip c)) <$> ss))
  ∨ ((∃ c, c ∈ cs ∧ ∀ s, c ≠ PStr s) ∧ normalise_all cs = Raise AttributeError).
Proof.
  induction cs as [|c cs IH]; [left; by exists []|].
  assert (Hc : (∃ s, c = PStr s) ∨ (∀ s, c ≠ PStr s)).
  { destruct c; eauto. }
  destruct Hc as [[s ->]|Hc].
  - destruct IH as [(ss & -> & Hn)|((c & Hin & Hc) & Hn)].
    + left. exists (s :: ss). split; [done|]. simpl. by rewrite Hn.
    + right. split; [exists c; split; [by apply elem_of_cons; right|done]|].
      simpl. by rewrite Hn.
  - right. split; [exists c; split; [by apply elem_of_cons; left|done]|].
    destruct c; try done; by destruct (Hc s).
Qed.

(** The Sending stage, seen from outside, whatever the pause setting. *)
Lemma sending_run yr to_send w :
  ∃ r w' l,
    sending cfg ext yr to_send w = (r, w')
    ∧ attempts w' = attempts w ++ l
    ∧ l.*1 `sublist_of` (cand_phone <$> slice_to to_send (MAX_MESSAGES_PER_RUN cfg))
    ∧ (∀ k, k ∉ ((λ p, (p, yr)) <$> l.*1) → sent w' !! k = sent w !! k)
    ∧ (∀ k row, sent w' !! k = Some row →
         sent w !! k = Some row ∨ ∃ p, k = (p, yr) ∧ (p, row.2) ∈ l)
    ∧ (∀ k, is_Some (sent w !! k) → is_Some (sent w' !! k)).
Proof. unfold sending. apply send_loop. Qed.

(** The Sending stage under a pause setting [time.sleep] accepts. *)
Lemma sending_paced yr to_send w :
  sleep_check (SEND_DELAY_SECONDS cfg) = Ok tt →
  ∃ n w' l,
    sending cfg ext yr to_send w = (Ok n, w')
    ∧ sleeps w' = (sleeps w + length (slice_to to_send (MAX_MESSAGES_PER_RUN cfg)))%nat
    ∧ attempts w' = attempts w ++ l
    ∧ l.*1 = cand_phone <$> filter (λ c, composes cfg ext c = true)
                              (slice_to to_send (MAX_MESSAGES_PER_RUN cfg))
    ∧ 0 ≤ n ≤ Z.of_nat (length l)
    ∧ (n = 0 → sent w' = sent w).
Proof.
  intros Hd. unfold sending.
  destruct (send_loop_paced cfg ext yr (slice_to to_send (MAX_MESSAGES_PER_RUN cfg)) Hd 0 w)
    as (n & w' & l & H). exists n, w', l. by rewrite Z.add_0_l in H.
Qed.

(** The three ways a run ends before it reads the clock. *)
Lemma main_unloaded w :
  read_excel ext (CONTACTS_FILE cfg) (CONTACTS_SHEET cfg) = None →
  main cfg ext w
  = (Ok tt,
     World (ticks w) (sent w) (attempts w) (posts w)
           (logs w ++ [LogInfo "Starting birthday bot." [];
                       LogException "Failed to load contacts file: %s" [CONTACTS_FILE cfg]])
           (sleeps w)).
Proof. intros Hload. unfold main. rewrite Hload. run. by rewrite <- app_assoc. Qed.

Lemma main_bad_header w df e :
  read_excel ext (CONTACTS_FILE cfg) (CONTACTS_SHEET cfg) = Some df →
  normalise_all (columns df) = Raise e →
  main cfg ext w
  = (Raise e,
     World (ticks w) (sent w) (attempts w) (posts w)
           (logs w ++ [LogInfo "Starting birthday bot." []]) (sleeps w)).
Proof.
  intros Hload Hn. unfold main. rewrite Hload.
  rewrite run_bind. unfold log at 1. rewrite run_bind. unfold init_db at 1.
  unfold mret at 1, M_ret at 1. rewrite run_bind. unfold lift at 1. by rewrite Hn.
Qed.

Lemma main_missing w df cols i r :
  read_excel ext (CONTACTS_FILE cfg) (CONTACTS_SHEET cfg) = Some df →
  normalise_all (columns df) = Ok cols →
  list_find (λ r, r ∉ cols) required = Some (i, r) →
  main cfg ext w
  = (Ok tt,
     World (ticks w) (sent w) (attempts w) (posts w)
           (logs w ++ [LogInfo "Starting birthday bot." [];
                       LogError "Contacts file missing required column: %s" [r]])
           (sleeps w)).
Proof.
  intros Hload Hn Hfind. unfold main. rewrite Hload.
  rewrite run_bind. unfold log at 1. rewrite run_bind. unfold init_db at 1.
  unfold mret at 1, M_ret at 1. rewrite run_bind. unfold lift at 1. rewrite Hn, Hfind.
  unfold log. simpl. by rewrite <- app_assoc.
Qed.

(** A whole run, however it ends: the sender is called for no phone that
    already has a record for the run's year; the store changes only under
    the run's year, at phones the sender was called for, to messages it
    was given; and no row is removed. *)
Lemma main_summary w :
  ∃ r w' l,
    main cfg ext w = (r, w')
    ∧ attempts w' = attempts w ++ l
    ∧ (∀ p, is_Some (sent w !! (p, run_year ext w)) → p ∉ (l.*1))
    ∧ (∀ k, k ∉ ((λ p, (p, run_year ext w)) <$> l.*1) → sent w' !! k = sent w !! k)
    ∧ (∀ k row, sent w' !! k = Some row →
         sent w !! k = Some row ∨ ∃ p, k = (p, run_year ext w) ∧ (p, row.2) ∈ l)
    ∧ (∀ k, is_Some (sent w !! k) → is_Some (sent w' !! k)).
Proof.
  assert (Hnil : ∀ (r : result unit) (w' : world), sent w' = sent w → attempts w' = attempts w →
    ∃ r0 w0 l,
      (r, w') = (r0, w0)
      ∧ attempts w0 = attempts w ++ l
      ∧ (∀ p, is_Some (sent w !! (p, run_year ext w)) → p ∉ (l.*1))
      ∧ (∀ k, k ∉ ((λ p, (p, run_year ext w)) <$> l.*1) → sent w0 !! k = sent w !! k)
      ∧ (∀ k row, sent w0 !! k = Some row →
           sent w !! k = Some row ∨ ∃ p, k = (p, run_year ext w) ∧ (p, row.2) ∈ l)
      ∧ (∀ k, is_Some (sent w !! k) → is_Some (sent w0 !! k))).
  { intros r w' Hs Ha. exists r, w', []. split; [done|]. rewrite app_nil_r, Hs.
    split; [done|]. split; [intros p _ Hp; by apply elem_of_nil in Hp|].
    split; [done|]. split; [by left|done]. }
  unfold main. rewrite run_bind. unfold log at 1. rewrite run_bind. unfold init_db at 1.
  unfold mret at 1, M_ret at 1.
  destruct (read_excel ext _ _) as [df|]; [|run; by apply Hnil].
  rewrite run_bind. unfold lift at 1.
  destruct (normalise_all (columns df)) as [cols|e]; [|by apply Hnil].
  destruct (list_find _ required) as [[i r]|]; [run; by apply Hnil|].
  rewrite run_bind. unfold utcnow at 1. rewrite run_bind. unfold tick at 1.
  unfold mret at 1, M_ret at 1. cbv beta iota. simpl ticks.
  fold (run_year ext w). rewrite run_bind.
  match goal with |- context [filtering ext ?cols ?yr ?rws ?w0] =>
    destruct (filtering_run ext cols yr rws w0) as (rf & w1 & -> & Hu & Hout & _) end.
  destruct Hu as (Hs1 & Ha1 & _). simpl in Hs1, Ha1.
  destruct rf as [to_send|e]; [|by apply Hnil].
  destruct (Hout to_send eq_refl) as (_ & Hall). simpl in Hall.
  rewrite run_bind. unfold log at 1. rewrite run_bind.
  match goal with |- context [sending cfg ext ?yr ?ts ?w0] =>
    destruct (sending_run yr ts w0) as (rs & w2 & l & -> & Ha2 & Hsub & Hfr & Hmsg & Hkeep) end.
  simpl in Ha2, Hfr, Hmsg, Hkeep.
  assert (Hgoal : attempts w2 = attempts w ++ l
    ∧ (∀ p, is_Some (sent w !! (p, run_year ext w)) → p ∉ (l.*1))
    ∧ (∀ k, k ∉ ((λ p, (p, run_year ext w)) <$> l.*1) → sent w2 !! k = sent w !! k)
    ∧ (∀ k row, sent w2 !! k = Some row →
         sent w !! k = Some row ∨ ∃ p, k = (p, run_year ext w) ∧ (p, row.2) ∈ l)
    ∧ (∀ k, is_Some (sent w !! k) → is_Some (sent w2 !! k))).
  { split; [congruence|]. split; [|split; [|split]].
    - intros p Hp Hin.
      assert (Hin' : p ∈ cand_phone <$> to_send).
      { eapply elem_of_sublist; [exact Hin|]. etrans; [exact Hsub|].
        apply fmap_sublist, slice_to_sublist. }
      apply list_elem_of_fmap in Hin' as (c & -> & Hc).
      rewrite Forall_forall in Hall. specialize (Hall c Hc).
      rewrite Hall in Hp. by destruct Hp.
    - intros k Hk. rewrite Hfr by done. by rewrite Hs1.
    - intros k row Hk. rewrite <- Hs1. by apply Hmsg.
    - intros k Hk. apply Hkeep. by rewrite Hs1. }
  destruct rs as [n|e]; run; eexists _, _, l; (split; [reflexivity|]); exact Hgoal.
Qed.


End Run.
(** ** Notes as the formatter reads them *)

Section Parts.
Variable o : string → string → result string.

Lemma format_from_open name s :
  format_from o name 0 ("{{" +:+ s) = emit "{" (format_from o name 0 s).
Proof. reflexivity. Qed.

Lemma format_from_close name s :
  format_from o name 0 ("}}" +:+ s) = emit "}" (format_from o name 0 s).
Proof. reflexivity. Qed.

(** Text made of brace-free literals, [{name}] fields and escapes is
    formatted part by part, and the scan goes on in what follows. *)
Lemma format_from_parts name ps s :
  plain_parts ps →
  format_from o name 0 (written ps +:+ s) = emit (rendered name ps) (format_from o name 0 s).
Proof.
  unfold plain_parts. induction 1 as [|p ps Hp _ IH]; [simpl; by rewrite emit_empty|].
  destruct p as [a| | |]; cbn [written rendered]; rewrite append_assoc.
  - by rewrite format_from_plain, IH, emit_emit.
  - by rewrite format_from_field, IH, emit_emit.
  - by rewrite format_from_open, IH, emit_emit.
  - by rewrite format_from_close, IH, emit_emit.
Qed.

(** A builtin template with a postscript of such parts. *)
Lemma format_postscript name t ps rest :
  t ∈ builtin_templates → plain_parts ps →
  format o (t +:+ " PS: " +:+ written ps +:+ rest) name
  = emit (replace "{name}" name t +:+ " PS: " +:+ rendered name ps)
         (format o rest name).
Proof.
  intros Ht Hps. rewrite format_builtin by done. unfold format.
  rewrite (format_from_plain o name " PS: " (written ps +:+ rest)) by done.
  rewrite format_from_parts by done. by rewrite !emit_emit, !append_assoc.
Qed.

End Parts.

(** A filter that every element passes keeps the list. *)
Lemma filter_all {A} (P : A → Prop) `{∀ x, Decision (P x)} (l : list A) :
  (∀ x, x ∈ l → P x) → filter P l = l.
Proof.
  induction l as [|x l IH]; intros Hall; [done|].
  rewrite filter_cons, decide_True by (apply Hall; by left).
  f_equal. apply IH. intros y Hy. apply Hall. by right.
Qed.

(** ** One turn of the sending loop, case by case *)

Section Turn.
Variable cfg : config.
Variable ext : external.

(** The [try] statement of a turn by the composer's and the sender's
    outcome. *)
Lemma guarded_cases yr cnt name phone notes template w :
  sleeps (guarded_deliver cfg ext yr cnt (name, phone, notes, template) w).2 = sleeps w
  ∧ match generate_personal_message cfg ext name notes template w with
    | (Raise _, _) =>
        (guarded_deliver cfg ext yr cnt (name, phone, notes, template) w).1 = Ok cnt
        ∧ sent (guarded_deliver cfg ext yr cnt (name, phone, notes, template) w).2 = sent w
        ∧ attempts (guarded_deliver cfg ext yr cnt (name, phone, notes, template) w).2
          = attempts w
    | (Ok msg, w1) =>
        match (send_whatsapp cfg ext phone msg w1).1 with
        | Ok true =>
            (guarded_deliver cfg ext yr cnt (name, phone, notes, template) w).1
            = Ok (cnt + 1)
            ∧ snd <$> (sent (guarded_deliver cfg ext yr cnt (name, phone, notes, template) w).2
                       !! (phone, yr)) = Some msg
        | Ok false | Raise _ =>
            (guarded_deliver cfg ext yr cnt (name, phone, notes, template) w).1 = Ok cnt
            ∧ sent (guarded_deliver cfg ext yr cnt (name, phone, notes, template) w).2
              = sent w
        end
    end.
Proof.
  unfold guarded_deliver. rewrite run_try, deliver_run.
  pose proof (generate_untouched cfg ext name notes template w) as Hg.
  destruct (generate_personal_message cfg ext name notes template w) as [[msg|e] w1];
    simpl in Hg; destruct Hg as (Hs1 & Ha1 & _ & Hz1).
  - pose proof (send_whatsapp_effects cfg ext phone msg w1) as Hs.
    destruct (send_whatsapp cfg ext phone msg w1) as [[[|]|e] w2];
      simpl in Hs; destruct Hs as (_ & Hs2 & Hz2 & _); run.
    + split; [congruence|]. split; [done|]. by rewrite lookup_insert_eq.
    + split; [congruence|]. split; [done|congruence].
    + split; [congruence|]. split; [done|congruence].
  - run. split; [congruence|]. by repeat split.
Qed.

(** The turn with its pause, when [time.sleep] accepts the setting. *)
Lemma send_to_paced yr cnt c w :
  sleep_check (SEND_DELAY_SECONDS cfg) = Ok tt →
  (send_to cfg ext yr cnt c w).1 = (guarded_deliver cfg ext yr cnt c w).1
  ∧ sent (send_to cfg ext yr cnt c w).2 = sent (guarded_deliver cfg ext yr cnt c w).2
  ∧ attempts (send_to cfg ext yr cnt c w).2 = attempts (guarded_deliver cfg ext yr cnt c w).2
  ∧ sleeps (send_to cfg ext yr cnt c w).2 = S (sleeps (guarded_deliver cfg ext yr cnt c w).2).
Proof.
  intros Hd. destruct (send_to_run cfg ext yr cnt c w) as (n & w1 & -> & _ & _ & ->).
  by rewrite Hd.
Qed.

(** Under a provider that accepts nothing, the sender never reports
    success, whatever the configuration. *)
Lemma send_whatsapp_not_accepted phone message w :
  (∀ n r status body, http_post ext n r = Some (status, body) → accepted status = false) →
  (send_whatsapp cfg ext phone message w).1 ≠ Ok true.
Proof.
  intros Hrej.
  destruct (configured (TWILIO_ACCOUNT_SID cfg) && configured (TWILIO_AUTH_TOKEN cfg)
            && configured (TWILIO_WHATSAPP_FROM cfg)) eqn:H1.
  { destruct (send_twilio cfg ext phone message w H1) as (w' & -> & _). simpl.
    destruct (http_post ext _ _) as [[st body]|] eqn:Hp; simpl; [|done].
    by rewrite (Hrej _ _ _ _ Hp). }
  destruct (configured (META_WABA_TOKEN cfg) && configured (META_PHONE_NUMBER_ID cfg)) eqn:H2.
  { destruct (send_meta cfg ext phone message w H1 H2) as (w' & -> & _). simpl.
    destruct (http_post ext _ _) as [[st body]|] eqn:Hp; simpl; [|done].
    by rewrite (Hrej _ _ _ _ Hp). }
  by destruct (send_unconfigured cfg ext phone message w H1 H2) as (w' & -> & _).
Qed.

End Turn.
(** ** The claims *)

(** C1. A contact whose phone already has a record for the run's year is
    not a recipient. The Filtering stage writes no record, calls no
    sender and posts nothing, however it ends, and every recipient it
    lists has a phone without a record for the year it is given; it
    does list (it raises only on a sheet with several birthday columns).
    A whole run, whose year is the UTC year of its first clock reading
    whatever the contacts' time zones, neither calls the sender for such
    a phone nor touches its record. *)
Theorem C1_greeted_phone_is_skipped (cfg : config) (ext : external) :
  (∀ cols yr rws w,
      unique_label cols "birthday" →
      ∃ to_send w',
        filtering ext cols yr rws w = (Ok to_send, w')
        ∧ sent w' = sent w ∧ attempts w' = attempts w ∧ posts w' = posts w
        ∧ ∀ c, c ∈ to_send → sent w !! (cand_phone c, yr) = None)
  ∧ (∀ cols yr rws w,
      sent (filtering ext cols yr rws w).2 = sent w
      ∧ attempts (filtering ext cols yr rws w).2 = attempts w
      ∧ posts (filtering ext cols yr rws w).2 = posts w
      ∧ ∀ to_send, (filtering ext cols yr rws w).1 = Ok to_send →
          ∀ c, c ∈ to_send → sent w !! (cand_phone c, yr) = None)
  ∧ (∀ w phone,
      is_Some (sent w !! (phone, year (local_date ext utc (clock ext (ticks w))))) →
      ∃ l, attempts (main cfg ext w).2 = attempts w ++ l
           ∧ (phone ∉ l.*1)
           ∧ sent (main cfg ext w).2 !! (phone, year (local_date ext utc (clock ext (ticks w))))
             = sent w !! (phone, year (local_date ext utc (clock ext (ticks w))))).
Proof.
  split; [|split].
  - intros cols yr rws w Hun.
    destruct (filtering_run ext cols yr rws w) as (r & w' & Hrun & Hu & Hout & Htot).
    destruct (Htot Hun) as [to_send ->].
    exists to_send, w'. destruct Hu as (? & ? & ? & _). repeat split; try done.
    intros c Hc. destruct (Hout to_send eq_refl) as (_ & Hall).
    rewrite Forall_forall in Hall. by apply Hall.
  - intros cols yr rws w.
    destruct (filtering_run ext cols yr rws w) as (r & w' & -> & Hu & Hout & _).
    destruct Hu as (? & ? & ? & _). cbn [fst snd]. repeat split; try done.
    intros to_send -> c Hc. destruct (Hout to_send eq_refl) as (_ & Hall).
    rewrite Forall_forall in Hall. by apply Hall.
  - intros w phone Hrec.
    destruct (main_summary cfg ext w) as (r & w' & l & -> & Ha & Hskip & Hfr & _). simpl.
    exists l. split; [done|]. split; [by apply Hskip|].
    apply Hfr. intros (p & [= ->] & Hp)%list_elem_of_fmap. by apply (Hskip p).
Qed.

Lemma C1_greeted_phone_is_skipped_witness :
  (∃ to_send w',
     filtering calm ["name"; "phone"; "birthday"; "timezone"; "notes"] 2024 (rows sheet) greeted
     = (Ok to_send, w')
     ∧ sent w' = sent greeted ∧ attempts w' = attempts greeted ∧ posts w' = posts greeted
     ∧ ∀ c, c ∈ to_send → sent greeted !! (cand_phone c, 2024) = None)
  ∧ ∃ l, attempts (main twilio_cfg calm greeted).2 = attempts greeted ++ l
         ∧ ("+1555" ∉ l.*1)
         ∧ sent (main twilio_cfg calm greeted).2 !! ("+1555", 2024)
           = sent greeted !! ("+1555", 2024).
Proof.
  split.
  - apply (proj1 (C1_greeted_phone_is_skipped twilio_cfg calm)).
    unfold unique_label. simpl. lia.
  - apply (proj2 (proj2 (C1_greeted_phone_is_skipped twilio_cfg calm)) greeted "+1555").
    vm_compute. eauto.
Defined.

(** The run behind C1: Ann, already greeted in 2024, gets no second call;
    the one call of the run is for Bob. *)
Example greeted_run :
  (attempts (main twilio_cfg calm greeted).2).*1 = ["+447000"]
  ∧ (attempts (main twilio_cfg calm fresh).2).*1 = ["+447000"; "+1555"].
Proof. by vm_compute. Qed.

(** C2. After [record_send] the key is reported as sent and holds exactly
    the recorded message; other keys keep their rows; recording again
    under the same key replaces the row and adds none; and when
    [deliver] counts a success, the row under the recipient's key holds
    the very message the sender was called with. *)
Theorem C2_record_roundtrip (ext : external) (phone : string) (yr : Z) (message : string)
    (w : world) :
  let w1 := (record_send ext phone yr message w).2 in
  (record_send ext phone yr message w).1 = Ok tt
  ∧ (already_sent phone yr w1).1 = Ok true
  ∧ snd <$> (sent w1 !! (phone, yr)) = Some message
  ∧ (∀ k, k ≠ (phone, yr) → sent w1 !! k = sent w !! k)
  ∧ (∀ message2,
       let w2 := (record_send ext phone yr message2 w1).2 in
       snd <$> (sent w2 !! (phone, yr)) = Some message2
       ∧ dom (sent w2) = dom (sent w1) ∧ size (sent w2) = size (sent w1))
  ∧ (∀ cfg cnt name notes template w',
       deliver cfg ext yr cnt (name, phone, notes, template) w = (Ok (cnt + 1), w') →
       ∃ msg, last (attempts w') = Some (phone, msg)
              ∧ snd <$> (sent w' !! (phone, yr)) = Some msg
              ∧ (already_sent phone yr w').1 = Ok true).
Proof.
  destruct (record_send_run ext phone yr message w) as (w1 & Hrun & Hs1 & _).
  rewrite Hrun. cbv zeta. cbn [fst snd]. split; [done|].
  rewrite already_sent_run. cbn [fst snd].
  split. { rewrite Hs1, lookup_insert_eq. by rewrite bool_decide_eq_true_2. }
  split. { by rewrite Hs1, lookup_insert_eq. }
  split. { intros k Hk. by rewrite Hs1, lookup_insert_ne. }
  split.
  - intros message2.
    destruct (record_send_run ext phone yr message2 w1) as (w2 & Hrun2 & Hs2 & _).
    rewrite Hrun2. cbn [fst snd]. rewrite Hs2, lookup_insert_eq. split; [done|].
    assert (Hdom : dom (<[(phone, yr):=(isoformat ext (clock ext (ticks w1)), message2)]>
                          (sent w1)) = dom (sent w1)).
    { rewrite dom_insert_L. apply (anti_symm (⊆)); [|set_solver].
      apply union_least; [|done]. apply singleton_subseteq_l, elem_of_dom.
      rewrite Hs1, lookup_insert_eq. eauto. }
    split; [done|]. by rewrite <- !size_dom, Hdom.
  - intros cfg cnt name notes template w'. rewrite deliver_run.
    pose proof (generate_untouched cfg ext name notes template w) as Hg.
    destruct (generate_personal_message cfg ext name notes template w) as [[msg|e] w0];
      [|done]. simpl in Hg.
    pose proof (send_whatsapp_effects cfg ext phone msg w0) as Hs.
    destruct (send_whatsapp cfg ext phone msg w0) as [[[|]|e] w2]; simpl in Hs;
      [|intros [= ? _]; lia|done].
    intros [= <-]. rewrite already_sent_run. cbn [fst snd sent attempts].
    destruct Hs as (Ha & _). exists msg.
    rewrite Ha, last_snoc, lookup_insert_eq. split; [done|]. split; [done|].
    by rewrite bool_decide_eq_true_2.
Qed.

Lemma C2_record_roundtrip_witness :
  ∃ msg, last (attempts (deliver twilio_cfg calm 2024 0
                          ("Ann", "+1555", Scalar (PStr "loves tea"), Scalar PNone) fresh).2)
         = Some ("+1555", msg)
       ∧ snd <$> (sent (deliver twilio_cfg calm 2024 0
                           ("Ann", "+1555", Scalar (PStr "loves tea"), Scalar PNone) fresh).2
                  !! ("+1555", 2024)) = Some msg
       ∧ (already_sent "+1555" 2024
            (deliver twilio_cfg calm 2024 0
               ("Ann", "+1555", Scalar (PStr "loves tea"), Scalar PNone) fresh).2).1 = Ok true.
Proof.
  refine (proj2 (proj2 (proj2 (proj2 (proj2
    (C2_record_roundtrip calm "+1555" 2024 "" fresh)))))
    twilio_cfg 0 "Ann" (Scalar (PStr "loves tea")) (Scalar PNone) _ _).
  destruct (deliver twilio_cfg calm 2024 0
              ("Ann", "+1555", Scalar (PStr "loves tea"), Scalar PNone) fresh)
    as [r w'] eqn:E.
  simpl. f_equal. vm_compute in E. by injection E as <- _.
Defined.

(** C3. When OpenAI is configured and its call fails, the composer does
    not raise: it returns one of the two fallback templates with the
    name filled in. The notes are not appended on this path, whatever
    they are: the result is the same as for absent notes. *)
Theorem C3_failed_call_drops_notes (cfg : config) (ext : external) (name : string)
    (notes template : pyval) (w : world) :
  truthy template = false →
  configured (OPENAI_API_KEY cfg) = true → openai_imported cfg = true →
  chat_completion ext (ticks w) (OPENAI_MODEL cfg) (prompt_for name notes) = None →
  ∃ t, t ∈ fallback_templates
       ∧ (generate_personal_message cfg ext name notes template w).1
         = Ok (replace "{name}" name t)
       ∧ (generate_personal_message cfg ext name notes template w).1
         = format (other_field ext) t name.
Proof.
  intros Ht Hk Hi Hfail.
  destruct (generate_fallback cfg ext name notes template w Ht) as (t & w' & Hin & -> & _);
    [by rewrite Hk, Hi|done|].
  exists t. split; [done|]. split; [done|]. simpl.
  by rewrite format_builtin_alone by by apply fallback_builtin.
Qed.

Lemma C3_failed_call_drops_notes_witness :
  ∃ t, t ∈ fallback_templates
       ∧ (generate_personal_message openai_cfg calm "Alice" (PStr "loves cats") PNone fresh).1
         = Ok (replace "{name}" "Alice" t)
       ∧ (generate_personal_message openai_cfg calm "Alice" (PStr "loves cats") PNone fresh).1
         = format (other_field calm) t "Alice".
Proof.
  apply (C3_failed_call_drops_notes openai_cfg calm "Alice" (PStr "loves cats") PNone fresh);
    reflexivity.
Defined.

(** The run behind C3: with OpenAI configured and the call failing, the
    greeting for Alice carries no postscript; without OpenAI the same
    notes are appended. *)
Example failed_call_run :
  (generate_personal_message openai_cfg calm "Alice" (PStr "loves cats") PNone fresh).1
  = Ok "Happy Birthday, Alice! ðŸŽ‰ Wishing you a fantastic day filled with joy."
  ∧ (generate_personal_message twilio_cfg calm "Alice" (PStr "loves cats") PNone fresh).1
    = Ok "Happy Birthday, Alice! ðŸŽ‰ Wishing you a fantastic day filled with joy. PS: loves cats".
Proof. by vm_compute. Qed.



(** C5, as stated, fails, in two ways. With a cap of two and three
    recipients of which the first has notes the formatter rejects, the
    sender is called once, for the second. And with a pause setting of
    -1 s, [time.sleep] raises after the first recipient's turn, outside
    the [try]: the stage ends with [ValueError] after one call. *)
Lemma C5_cap_counterexample :
  ¬ (∀ cfg ext yr to_send w,
       MAX_MESSAGES_PER_RUN cfg < Z.of_nat (length to_send) →
       Z.of_nat (length (attempts (sending cfg ext yr to_send w).2))
       = Z.of_nat (length (attempts w)) + MAX_MESSAGES_PER_RUN cfg)
  ∧ MAX_MESSAGES_PER_RUN twilio_cfg = 2
  ∧ (attempts (sending twilio_cfg calm 2024 [ann_braces; bob; cy] fresh).2).*1 = ["+447000"]
  ∧ MAX_MESSAGES_PER_RUN hasty_cfg = 2
  ∧ (sending hasty_cfg calm 2024 [bob; cy; ann] fresh).1 = Raise ValueError
  ∧ (attempts (sending hasty_cfg calm 2024 [bob; cy; ann] fresh).2).*1 = ["+447000"].
Proof.
  split; [|by vm_compute].
  intros H. specialize (H twilio_cfg calm 2024 [ann_braces; bob; cy] fresh).
  vm_compute in H. by specialize (H eq_refl).
Qed.

(** C5, amended. With a cap that is not negative, a longer list of
    recipients and a pause setting [time.sleep] accepts, the Sending
    stage returns and gives exactly the first [MAX_MESSAGES_PER_RUN]
    recipients a turn (one pause each). The sender is called once for
    each of them whose message composes, in the order of the list, and
    for nobody else: exactly [MAX_MESSAGES_PER_RUN] times when all of
    them compose. Whether a recipient's message composes does not depend
    on the state. The store changes only under the keys of phones the
    sender was called for; so for a recipient beyond the cap whose phone
    is not that of one of the first [MAX_MESSAGES_PER_RUN], the sender is
    not called and the record under its key is as before. *)
Theorem C5_cap_amended (cfg : config) (ext : external) (yr : Z) (to_send : list candidate)
    (w : world) :
  0 ≤ MAX_MESSAGES_PER_RUN cfg < Z.of_nat (length to_send) →
  sleep_check (SEND_DELAY_SECONDS cfg) = Ok tt →
  ∃ n w' l,
    sending cfg ext yr to_send w = (Ok n, w')
    ∧ sleeps w' = (sleeps w + Z.to_nat (MAX_MESSAGES_PER_RUN cfg))%nat
    ∧ attempts w' = attempts w ++ l
    ∧ l.*1 = cand_phone <$> filter (λ c, composes cfg ext c = true)
                              (take (Z.to_nat (MAX_MESSAGES_PER_RUN cfg)) to_send)
    ∧ ((∀ c, c ∈ take (Z.to_nat (MAX_MESSAGES_PER_RUN cfg)) to_send →
          composes cfg ext c = true) →
       Z.of_nat (length l) = MAX_MESSAGES_PER_RUN cfg
       ∧ l.*1 = cand_phone <$> take (Z.to_nat (MAX_MESSAGES_PER_RUN cfg)) to_send)
    ∧ (∀ c w0,
         composes cfg ext c
         = returned (generate_personal_message cfg ext c.1.1.1 c.1.2 c.2 w0).1)
    ∧ (∀ k, k ∉ ((λ p, (p, yr)) <$> l.*1) → sent w' !! k = sent w !! k)
    ∧ (∀ c, c ∈ drop (Z.to_nat (MAX_MESSAGES_PER_RUN cfg)) to_send →
         cand_phone c ∉ cand_phone <$> take (Z.to_nat (MAX_MESSAGES_PER_RUN cfg)) to_send →
         (cand_phone c ∉ l.*1)
         ∧ sent w' !! (cand_phone c, yr) = sent w !! (cand_phone c, yr)).
Proof.
  intros [Hlo Hhi] Hd.
  destruct (sending_paced cfg ext yr to_send w Hd) as (n & w' & l & Hrun & Hz & Ha & Hl & _).
  destruct (sending_run cfg ext yr to_send w) as (r0 & w0 & l0 & Hrun0 & Ha0 & _ & Hfr & _).
  rewrite Hrun in Hrun0. injection Hrun0 as <- <-.
  rewrite Ha in Ha0. apply app_inv_head in Ha0 as <-.
  rewrite slice_to_cap in Hz, Hl by done.
  exists n, w', l. split; [done|].
  split. { rewrite Hz, length_take. lia. }
  split; [done|]. split; [done|].
  split.
  { intros Hall.
    rewrite filter_all in Hl by done. split; [|done].
    rewrite <- (length_fmap fst l). change (fst <$> l) with (l.*1).
    rewrite Hl, length_fmap, length_take. lia. }
  split.
  { intros [[[name phone] notes] template] w0. symmetry.
    apply (generate_returns cfg ext name phone notes template w0). }
  split; [done|].
  intros c _ Hc.
  assert (Hnot : cand_phone c ∉ l.*1).
  { intros Hin. apply Hc. rewrite Hl in Hin.
    apply list_elem_of_fmap in Hin as (c' & -> & Hc').
    apply list_elem_of_filter in Hc' as [_ Hc']. by apply list_elem_of_fmap_2. }
  split; [done|]. apply Hfr.
  intros (p & Heq & Hp)%list_elem_of_fmap. injection Heq as Heq. by rewrite Heq in Hnot.
Qed.

Lemma C5_cap_amended_witness :
  ∃ n w' l,
    sending twilio_cfg calm 2024 [ann_braces; bob; cy] fresh = (Ok n, w')
    ∧ sleeps w' = (sleeps fresh + Z.to_nat (MAX_MESSAGES_PER_RUN twilio_cfg))%nat
    ∧ attempts w' = attempts fresh ++ l
    ∧ l.*1 = cand_phone <$> filter (λ c, composes twilio_cfg calm c = true)
                              (take (Z.to_nat (MAX_MESSAGES_PER_RUN twilio_cfg))
                                    [ann_braces; bob; cy])
    ∧ ((∀ c, c ∈ take (Z.to_nat (MAX_MESSAGES_PER_RUN twilio_cfg)) [ann_braces; bob; cy] →
          composes twilio_cfg calm c = true) →
       Z.of_nat (length l) = MAX_MESSAGES_PER_RUN twilio_cfg
       ∧ l.*1 = cand_phone <$> take (Z.to_nat (MAX_MESSAGES_PER_RUN twilio_cfg))
                                 [ann_braces; bob; cy])
    ∧ (∀ c w0,
         composes twilio_cfg calm c
         = returned (generate_personal_message twilio_cfg calm c.1.1.1 c.1.2 c.2 w0).1)
    ∧ (∀ k, k ∉ ((λ p, (p, 2024)) <$> l.*1) → sent w' !! k = sent fresh !! k)
    ∧ (∀ c, c ∈ drop (Z.to_nat (MAX_MESSAGES_PER_RUN twilio_cfg)) [ann_braces; bob; cy] →
         cand_phone c ∉ cand_phone <$> take (Z.to_nat (MAX_MESSAGES_PER_RUN twilio_cfg))
                                         [ann_braces; bob; cy] →
         (cand_phone c ∉ l.*1)
         ∧ sent w' !! (cand_phone c, 2024) = sent fresh !! (cand_phone c, 2024)).
Proof.
  apply (C5_cap_amended twilio_cfg calm 2024 [ann_braces; bob; cy] fresh).
  - vm_compute. split; [by intros [=]|reflexivity].
  - reflexivity.
Defined.

(** The runs behind C5: under a cap of two, three recipients who all
    compose get exactly two calls, in list order, and the third neither
    a call nor a record. *)
Example capped_run :
  (attempts (sending twilio_cfg calm 2024 [bob; ann; cy] fresh).2).*1 = ["+447000"; "+1555"]
  ∧ is_Some (sent (sending twilio_cfg calm 2024 [bob; ann; cy] fresh).2 !! ("+447000", 2024))
  ∧ is_Some (sent (sending twilio_cfg calm 2024 [bob; ann; cy] fresh).2 !! ("+1555", 2024))
  ∧ sent (sending twilio_cfg calm 2024 [bob; ann; cy] fresh).2 !! ("+1777", 2024) = None
  ∧ sleeps (sending twilio_cfg calm 2024 [bob; ann; cy] fresh).2 = 2%nat.
Proof. vm_compute. eauto 10. Qed.

(** C6, as stated, fails: the pause of a turn stands after the [try]
    statement, outside it. With a pause setting of -1 s and a provider
    that rejects the request, the first recipient's failed send writes
    nothing, but then [time.sleep] raises [ValueError]: the loop ends
    there and the second recipient never gets a turn. *)
Lemma C6_pause_counterexample :
  ¬ (∀ cfg ext yr cands cnt w,
       ∃ n w', for_each (send_to cfg ext yr) cands cnt w = (Ok n, w'))
  ∧ sleep_check (SEND_DELAY_SECONDS hasty_cfg) = Raise ValueError
  ∧ (sending hasty_cfg rejecting 2024 [bob; cy] fresh).1 = Raise ValueError
  ∧ (attempts (sending hasty_cfg rejecting 2024 [bob; cy] fresh).2).*1 = ["+447000"]
  ∧ sent (sending hasty_cfg rejecting 2024 [bob; cy] fresh).2 = sent fresh
  ∧ sleeps (sending hasty_cfg rejecting 2024 [bob; cy] fresh).2 = 0%nat
  ∧ (main hasty_cfg rejecting fresh).1 = Raise ValueError.
Proof.
  split; [|by vm_compute].
  intros H. destruct (H hasty_cfg rejecting 2024 [bob; cy] 0 fresh) as (n & w' & Hrun).
  by vm_compute in Hrun.
Qed.

(** C6, amended. The [try] statement of a turn never raises and never
    pauses. If composing raised, or the sender raised or returned
    failure, the counter and the store are as before the turn; only when
    the sender returned success is the counter one higher, and then the
    recipient's key holds the message sent. The pause follows the [try]
    statement. With a pause setting [time.sleep] accepts, the turn as a
    whole behaves like its [try] statement and ends with one pause, so
    the loop returns, gives every recipient a turn, and a counter that
    did not move means an unchanged store. With a setting [time.sleep]
    refuses, the loop ends with that exception right after the first
    recipient's [try] statement. *)
Theorem C6_failed_turn_writes_nothing (cfg : config) (ext : external) (yr : Z) :
  (∀ cnt name phone notes template w,
     let out := guarded_deliver cfg ext yr cnt (name, phone, notes, template) w in
     sleeps out.2 = sleeps w
     ∧ match generate_personal_message cfg ext name notes template w with
       | (Raise _, _) => out.1 = Ok cnt ∧ sent out.2 = sent w ∧ attempts out.2 = attempts w
       | (Ok msg, w1) =>
           match (send_whatsapp cfg ext phone msg w1).1 with
           | Ok true =>
               out.1 = Ok (cnt + 1) ∧ snd <$> (sent out.2 !! (phone, yr)) = Some msg
           | Ok false | Raise _ => out.1 = Ok cnt ∧ sent out.2 = sent w
           end
       end)
  ∧ (sleep_check (SEND_DELAY_SECONDS cfg) = Ok tt →
     (∀ cnt name phone notes template w,
        let out := send_to cfg ext yr cnt (name, phone, notes, template) w in
        sleeps out.2 = S (sleeps w)
        ∧ match generate_personal_message cfg ext name notes template w with
          | (Raise _, _) =>
              out.1 = Ok cnt ∧ sent out.2 = sent w ∧ attempts out.2 = attempts w
          | (Ok msg, w1) =>
              match (send_whatsapp cfg ext phone msg w1).1 with
              | Ok true =>
                  out.1 = Ok (cnt + 1) ∧ snd <$> (sent out.2 !! (phone, yr)) = Some msg
              | Ok false | Raise _ => out.1 = Ok cnt ∧ sent out.2 = sent w
              end
          end)
     ∧ (∀ cands cnt w, ∃ n w',
          for_each (send_to cfg ext yr) cands cnt w = (Ok n, w')
          ∧ sleeps w' = (sleeps w + length cands)%nat
          ∧ cnt ≤ n ≤ cnt + Z.of_nat (length cands)
          ∧ (n = cnt → sent w' = sent w)))
  ∧ (∀ e, sleep_check (SEND_DELAY_SECONDS cfg) = Raise e →
     ∀ c cands cnt w,
       for_each (send_to cfg ext yr) (c :: cands) cnt w
       = (Raise e, (guarded_deliver cfg ext yr cnt c w).2)).
Proof.
  split; [|split].
  - intros cnt name phone notes template w. cbv zeta. apply guarded_cases.
  - intros Hd. split.
    + intros cnt name phone notes template w. cbv zeta.
      destruct (send_to_paced cfg ext yr cnt (name, phone, notes, template) w Hd)
        as (-> & -> & -> & ->).
      destruct (guarded_cases cfg ext yr cnt name phone notes template w) as [-> Hcases].
      split; [done|]. exact Hcases.
    + intros cands cnt w.
      destruct (send_loop_paced cfg ext yr cands Hd cnt w)
        as (n & w' & l & Hrun & Hz & _ & Hl & Hn & Hsame).
      exists n, w'. split; [done|]. split; [done|]. split; [|done].
      assert (Hlen : (length l ≤ length cands)%nat).
      { rewrite <- (length_fmap fst l). change (fst <$> l) with (l.*1).
        rewrite Hl, length_fmap. apply length_filter. }
      lia.
  - intros e Hd c cands cnt w. by apply send_loop_abort.
Qed.

Lemma C6_failed_turn_writes_nothing_witness :
  (∃ n w',
     for_each (send_to twilio_cfg rejecting 2024) [bob; cy] 0 fresh = (Ok n, w')
     ∧ sleeps w' = (sleeps fresh + length [bob; cy])%nat
     ∧ 0 ≤ n ≤ 0 + Z.of_nat (length [bob; cy])
     ∧ (n = 0 → sent w' = sent fresh))
  ∧ for_each (send_to hasty_cfg rejecting 2024) [bob; cy] 0 fresh
    = (Raise ValueError, (guarded_deliver hasty_cfg rejecting 2024 0 bob fresh).2).
Proof.
  split.
  - apply (proj2 (proj1 (proj2 (C6_failed_turn_writes_nothing twilio_cfg rejecting 2024))
                   eq_refl) [bob; cy] 0 fresh).
  - apply (proj2 (proj2 (C6_failed_turn_writes_nothing hasty_cfg rejecting 2024))
             ValueError eq_refl bob [cy] 0 fresh).
Defined.

(** The run behind C6: under a valid pause both recipients get a turn
    although the provider rejects every request; nothing is recorded and
    the count is zero. *)
Example rejected_run :
  (sending twilio_cfg rejecting 2024 [bob; cy] fresh).1 = Ok 0
  ∧ (attempts (sending twilio_cfg rejecting 2024 [bob; cy] fresh).2).*1
    = ["+447000"; "+1777"]
  ∧ sent (sending twilio_cfg rejecting 2024 [bob; cy] fresh).2 = sent fresh
  ∧ sleeps (sending twilio_cfg rejecting 2024 [bob; cy] fresh).2 = 2%nat.
Proof. by vm_compute. Qed.




(** The run behind C7: of the three rows of the sheet, Eve's, whose
    birthday does not parse, is not among the recipients. *)
Example unparseable_row_run :
  ((λ c : candidate, c.1.1.1) <$>
     default [] (match (filtering calm
                          ["name"; "phone"; "birthday"; "timezone"; "notes"] 2024
                          (rows sheet) fresh).1 with Ok l => Some l | Raise _ => None end))
  = ["Bob"; "Ann"].
Proof. by vm_compute. Qed.

(** C8. [send_whatsapp] asks exactly one provider, by fixed preference.
    With all three Twilio settings in place, the one request that goes
    out is Twilio's, whether or not Meta is configured, and the result is
    the verdict on Twilio's answer. With Twilio incomplete and both Meta
    settings in place, the one request is Meta's. With neither, nothing
    goes out, the error is logged, and the result is failure. *)
Theorem C8_provider_preference (cfg : config) (ext : external) (phone message : string)
    (w : world) :
  let twilio := configured (TWILIO_ACCOUNT_SID cfg) && configured (TWILIO_AUTH_TOKEN cfg)
                && configured (TWILIO_WHATSAPP_FROM cfg) in
  let meta := configured (META_WABA_TOKEN cfg) && configured (META_PHONE_NUMBER_ID cfg) in
  let out := send_whatsapp cfg ext phone message w in
  (twilio = true →
     out.1 = verdict (http_post ext (ticks w) (twilio_request cfg phone message))
     ∧ posts out.2 = posts w ++ [twilio_request cfg phone message])
  ∧ (twilio = false → meta = true →
     out.1 = verdict (http_post ext (ticks w) (meta_request cfg phone message))
     ∧ posts out.2 = posts w ++ [meta_request cfg phone message])
  ∧ (twilio = false → meta = false →
     out.1 = Ok false ∧ posts out.2 = posts w
     ∧ logs out.2 = logs w ++ [LogError "No WhatsApp provider configured." []]).
Proof.
  cbv zeta. split; [|split].
  - intros H. by destruct (send_twilio cfg ext phone message w H) as (w' & -> & ? & _).
  - intros H1 H2.
    by destruct (send_meta cfg ext phone message w H1 H2) as (w' & -> & ? & _).
  - intros H1 H2.
    by destruct (send_unconfigured cfg ext phone message w H1 H2) as (w' & -> & ? & ? & _).
Qed.

Lemma C8_provider_preference_witness :
  ((send_whatsapp both_cfg calm "+1555" "Hi" fresh).1 = Ok true
   ∧ posts (send_whatsapp both_cfg calm "+1555" "Hi" fresh).2
     = [TwilioPost "https://api.twilio.com/2010-04-01/Accounts/AC1/Messages.json"
                   "whatsapp:+14150000000" "whatsapp:+1555" "Hi" ("AC1", "token")])
  ∧ ((send_whatsapp meta_cfg calm "+1555" "Hi" fresh).1 = Ok true
     ∧ posts (send_whatsapp meta_cfg calm "+1555" "Hi" fresh).2
       = [MetaPost "https://graph.facebook.com/v16.0/1066/messages" "Bearer EAAB"
                   "+1555" "Hi"])
  ∧ ((send_whatsapp bare_cfg calm "+1555" "Hi" fresh).1 = Ok false
     ∧ posts (send_whatsapp bare_cfg calm "+1555" "Hi" fresh).2 = []
     ∧ logs (send_whatsapp bare_cfg calm "+1555" "Hi" fresh).2
       = [LogError "No WhatsApp provider configured." []]).
Proof.
  split; [|split].
  - apply (proj1 (C8_provider_preference both_cfg calm "+1555" "Hi" fresh)). reflexivity.
  - apply (proj1 (proj2 (C8_provider_preference meta_cfg calm "+1555" "Hi" fresh)));
      reflexivity.
  - apply (proj2 (proj2 (C8_provider_preference bare_cfg calm "+1555" "Hi" fresh)));
      reflexivity.
Defined.

(** C9. With a non-empty template the message is the template with the
    placeholder replaced by the name, whatever the notes, the
    configuration and the outside world, and nothing else happens. In
    terms of the template cut at its placeholders into pieces without
    an opening brace: the message is the pieces joined by the name. *)
Theorem C9_template_wins (cfg : config) (ext : external) (name : string) (notes : pyval)
    (t : string) (w : world) :
  t ≠ "" →
  generate_personal_message cfg ext name notes (PStr t) w
  = (Ok (replace "{name}" name t), w)
  ∧ (∀ pieces, Forall (λ p, no_open p = true) pieces → t = String.concat "{name}" pieces →
       generate_personal_message cfg ext name notes (PStr t) w
       = (Ok (String.concat name pieces), w)).
Proof.
  intros Ht.
  assert (Hrun : generate_personal_message cfg ext name notes (PStr t) w
                 = (Ok (replace "{name}" name t), w)).
  { rewrite generate_template; [done|]. simpl. apply negb_true_iff.
    by apply String.eqb_neq. }
  split; [done|]. intros pieces Hp ->. by rewrite Hrun, replace_join.
Qed.

Lemma C9_template_wins_witness :
  generate_personal_message openai_cfg calm "Alice" (PStr "loves cats") (PStr "Yo {name}!") fresh
  = (Ok "Yo Alice!", fresh).
Proof.
  apply (proj2 (C9_template_wins openai_cfg calm "Alice" (PStr "loves cats")
                  "Yo {name}!" fresh ltac:(discriminate)) ["Yo "; "!"]).
  - by repeat constructor.
  - reflexivity.
Defined.

(** C10, as stated, fails in its last part: a [{name}] inside the notes
    is not always filled in. Between doubled braces it comes out as the
    literal text, since the formatter reads the doubled braces as
    escapes; and after one doubled opening brace the closing brace is a
    lone one, and the composer raises. *)
Lemma C10_notes_counterexample :
  ¬ (∀ cfg ext name a b w,
       negb (configured (OPENAI_API_KEY cfg)) || negb (openai_imported cfg) = true →
       ∃ t, t ∈ builtin_templates
            ∧ (generate_personal_message cfg ext name (PStr (a +:+ "{name}" +:+ b)) PNone w).1
              = Ok (replace "{name}" name (t +:+ " PS: " +:+ a +:+ "{name}" +:+ b)))
  ∧ (generate_personal_message twilio_cfg calm "Alice" (PStr "{{name}}") PNone fresh).1
    = Ok "Happy Birthday, Alice! ðŸŽ‰ Wishing you a fantastic day filled with joy. PS: {name}"
  ∧ (generate_personal_message twilio_cfg calm "Alice" (PStr "{{name}") PNone fresh).1
    = Raise ValueError.
Proof.
  split; [|by vm_compute].
  intros H. destruct (H twilio_cfg calm "Alice" "{" "}" fresh eq_refl) as (t & Hin & Ht).
  unfold builtin_templates in Hin.
  repeat (apply elem_of_cons in Hin as [->|Hin]); [| | |by apply elem_of_nil in Hin];
    vm_compute in Ht; discriminate Ht.
Qed.

(** C10, amended. Without a template and without OpenAI, the composer
    appends the postscript to the chosen builtin template and formats
    the whole. For notes made of brace-free text, [{name}] fields and
    the escapes [{{] and [}}], the message is the greeting, [" PS: "] and
    the notes with every field replaced by the name and every escape by
    its single brace. Notes of that form followed by a lone opening or
    closing brace make the composer raise [ValueError]. *)
Theorem C10_notes_go_through_format (cfg : config) (ext : external) (name : string)
    (notes template : pyval) (w : world) :
  truthy template = false →
  negb (configured (OPENAI_API_KEY cfg)) || negb (openai_imported cfg) = true →
  ∃ t, t ∈ builtin_templates
    ∧ (generate_personal_message cfg ext name notes template w).1
      = format (other_field ext) (if truthy notes then t +:+ " PS: " +:+ str notes else t) name
    ∧ (∀ ps, plain_parts ps → notes = PStr (written ps) → written ps ≠ "" →
         (generate_personal_message cfg ext name notes template w).1
         = Ok (replace "{name}" name t +:+ " PS: " +:+ rendered name ps))
    ∧ (∀ ps, plain_parts ps → notes = PStr (written ps +:+ "{") →
         (generate_personal_message cfg ext name notes template w).1 = Raise ValueError)
    ∧ (∀ ps, plain_parts ps → notes = PStr (written ps +:+ "}") →
         (generate_personal_message cfg ext name notes template w).1 = Raise ValueError).
Proof.
  intros Ht Hc.
  destruct (generate_builtin cfg ext name notes template w Ht Hc) as (t & w' & Hin & -> & _).
  exists t. split; [done|]. split; [done|]. cbn [fst].
  assert (Hne : ∀ a b, b ≠ "" → truthy (PStr (a +:+ b)) = true).
  { intros a b Hb. simpl. apply negb_true_iff, String.eqb_neq.
    destruct a; [done|]. simpl. discriminate. }
  split; [|split].
  - intros ps Hps -> Hwr.
    assert (Htr : truthy (PStr (written ps)) = true).
    { simpl. by apply negb_true_iff, String.eqb_neq. }
    rewrite Htr. change (str (PStr (written ps))) with (written ps).
    rewrite <- (append_empty_r (written ps)) at 1.
    rewrite format_postscript by done. simpl. by rewrite append_empty_r.
  - intros ps Hps ->. rewrite Hne by done.
    change (str (PStr (written ps +:+ "{"))) with (written ps +:+ "{").
    by rewrite format_postscript.
  - intros ps Hps ->. rewrite Hne by done.
    change (str (PStr (written ps +:+ "}"))) with (written ps +:+ "}").
    by rewrite format_postscript.
Qed.

Lemma C10_notes_go_through_format_witness :
  ∃ t, t ∈ builtin_templates
    ∧ (generate_personal_message twilio_cfg calm "Alice"
         (PStr "{{name}} from {name}") PNone fresh).1
      = format (other_field calm)
          (if truthy (PStr "{{name}} from {name}")
           then t +:+ " PS: " +:+ str (PStr "{{name}} from {name}") else t) "Alice"
    ∧ (generate_personal_message twilio_cfg calm "Alice"
         (PStr "{{name}} from {name}") PNone fresh).1
      = Ok (replace "{name}" "Alice" t +:+ " PS: "
            +:+ rendered "Alice" [OpenEscape; Lit "name"; CloseEscape; Lit " from "; Field]).
Proof.
  destruct (C10_notes_go_through_format twilio_cfg calm "Alice"
              (PStr "{{name}} from {name}") PNone fresh eq_refl eq_refl)
    as (t & Hin & Hfmt & Hparts & _).
  exists t. split; [exact Hin|]. split; [exact Hfmt|].
  apply (Hparts [OpenEscape; Lit "name"; CloseEscape; Lit " from "; Field]).
  - repeat constructor.
  - reflexivity.
  - discriminate.
Defined.

(** The runs behind C10: a lone opening brace in the notes raises, a
    placeholder in the notes is filled in, and one between doubled braces
    is not. *)
Example notes_with_braces_run :
  (generate_personal_message twilio_cfg calm "Alice" (PStr "{") PNone fresh).1
  = Raise ValueError
  ∧ (generate_personal_message twilio_cfg calm "Alice" (PStr "from {name}'s friends") PNone
       fresh).1
    = Ok "Happy Birthday, Alice! ðŸŽ‰ Wishing you a fantastic day filled with joy. PS: from Alice's friends"
  ∧ (generate_personal_message twilio_cfg calm "Alice" (PStr "{{name}} from {name}") PNone
       fresh).1
    = Ok "Happy Birthday, Alice! ðŸŽ‰ Wishing you a fantastic day filled with joy. PS: {name} from Alice".
Proof. by vm_compute. Qed.

(** ** Further properties of the code *)

(** X1. The Twilio adapter guards its own settings: with one of them
    missing it logs the fact and returns failure without a request. With
    all in place it posts one request; the call succeeds exactly when the
    answer's status is 200 or 201, any other status is logged with the
    status and the body and gives failure, and a transport error is
    raised to the caller. *)
Theorem twilio_adapter_verdict (cfg : config) (ext : external) (phone message : string)
    (w : world) :
  let ready := configured (TWILIO_ACCOUNT_SID cfg) && configured (TWILIO_AUTH_TOKEN cfg)
               && configured (TWILIO_WHATSAPP_FROM cfg) in
  let out := send_whatsapp_twilio cfg ext phone message w in
  (ready = false →
     out.1 = Ok false ∧ posts out.2 = posts w ∧ ticks out.2 = ticks w
     ∧ logs out.2 = logs w ++ [LogError "Twilio credentials not configured." []])
  ∧ (ready = true →
     posts out.2 = posts w ++ [twilio_request cfg phone message]
     ∧ match http_post ext (ticks w) (twilio_request cfg phone message) with
       | Some (status, body) =>
           (out.1 = Ok true ↔ status = 200 ∨ status = 201)
           ∧ (out.1 = Ok false ↔ ¬ (status = 200 ∨ status = 201))
           ∧ logs out.2
             = logs w ++ (if decide (status = 200 ∨ status = 201) then []
                          else [LogError "Twilio send failed: %s %s" [pretty status; body]])
       | None => out.1 = Raise RequestException ∧ logs out.2 = logs w
       end).
Proof.
  cbv zeta. unfold send_whatsapp_twilio. split; intros ->; simpl negb; cbv iota.
  - by run.
  - change (TwilioPost _ _ _ _ _) with (twilio_request cfg phone message).
    generalize (twilio_request cfg phone message) as req. intros req. unfold post. run.
    destruct (http_post ext (ticks w) req) as [[st body]|]; simpl; [|done].
    unfold accepted. destruct (decide (st = 200 ∨ st = 201)) as [Hst|Hst].
    + assert (Hb : (st =? 200) || (st =? 201) = true).
      { apply orb_true_iff. rewrite !Z.eqb_eq. done. }
      rewrite Hb. simpl. rewrite app_nil_r. repeat split; first [done | by intros [=]].
    + assert (Hb : (st =? 200) || (st =? 201) = false).
      { apply not_true_is_false. rewrite orb_true_iff, !Z.eqb_eq. done. }
      rewrite Hb. simpl. repeat split; first [done | by intros [=]].
Qed.

Lemma twilio_adapter_verdict_witness :
  ((send_whatsapp_twilio bare_cfg calm "+1555" "Hi" fresh).1 = Ok false
   ∧ posts (send_whatsapp_twilio bare_cfg calm "+1555" "Hi" fresh).2 = posts fresh
   ∧ ticks (send_whatsapp_twilio bare_cfg calm "+1555" "Hi" fresh).2 = ticks fresh
   ∧ logs (send_whatsapp_twilio bare_cfg calm "+1555" "Hi" fresh).2
     = logs fresh ++ [LogError "Twilio credentials not configured." []])
  ∧ posts (send_whatsapp_twilio twilio_cfg rejecting "+1555" "Hi" fresh).2
    = posts fresh ++ [twilio_request twilio_cfg "+1555" "Hi"].
Proof.
  split.
  - apply (proj1 (twilio_adapter_verdict bare_cfg calm "+1555" "Hi" fresh)). reflexivity.
  - apply (proj2 (twilio_adapter_verdict twilio_cfg rejecting "+1555" "Hi" fresh)).
    reflexivity.
Defined.

(** X2. The Meta adapter does the same with its two settings: failure
    and a log line without a request when one is missing; otherwise one
    request, success exactly for status 200 or 201, a log line with
    status and body for any other status, and a transport error raised
    to the caller. *)
Theorem meta_adapter_verdict (cfg : config) (ext : external) (phone message : string)
    (w : world) :
  let ready := configured (META_WABA_TOKEN cfg) && configured (META_PHONE_NUMBER_ID cfg) in
  let out := send_whatsapp_meta cfg ext phone message w in
  (ready = false →
     out.1 = Ok false ∧ posts out.2 = posts w ∧ ticks out.2 = ticks w
     ∧ logs out.2 = logs w ++ [LogError "Meta WABA credentials not configured." []])
  ∧ (ready = true →
     posts out.2 = posts w ++ [meta_request cfg phone message]
     ∧ match http_post ext (ticks w) (meta_request cfg phone message) with
       | Some (status, body) =>
           (out.1 = Ok true ↔ status = 200 ∨ status = 201)
           ∧ (out.1 = Ok false ↔ ¬ (status = 200 ∨ status = 201))
           ∧ logs out.2
             = logs w ++ (if decide (status = 200 ∨ status = 201) then []
                          else [LogError "Meta send failed: %s %s" [pretty status; body]])
       | None => out.1 = Raise RequestException ∧ logs out.2 = logs w
       end).
Proof.
  cbv zeta. unfold send_whatsapp_meta. split; intros ->; simpl negb; cbv iota.
  - by run.
  - change (MetaPost _ _ _ _) with (meta_request cfg phone message).
    generalize (meta_request cfg phone message) as req. intros req. unfold post. run.
    destruct (http_post ext (ticks w) req) as [[st body]|]; simpl; [|done].
    unfold accepted. destruct (decide (st = 200 ∨ st = 201)) as [Hst|Hst].
    + assert (Hb : (st =? 200) || (st =? 201) = true).
      { apply orb_true_iff. rewrite !Z.eqb_eq. done. }
      rewrite Hb. simpl. rewrite app_nil_r. repeat split; first [done | by intros [=]].
    + assert (Hb : (st =? 200) || (st =? 201) = false).
      { apply not_true_is_false. rewrite orb_true_iff, !Z.eqb_eq. done. }
      rewrite Hb. simpl. repeat split; first [done | by intros [=]].
Qed.

Lemma meta_adapter_verdict_witness :
  ((send_whatsapp_meta twilio_cfg calm "+1555" "Hi" fresh).1 = Ok false
   ∧ posts (send_whatsapp_meta twilio_cfg calm "+1555" "Hi" fresh).2 = posts fresh
   ∧ ticks (send_whatsapp_meta twilio_cfg calm "+1555" "Hi" fresh).2 = ticks fresh
   ∧ logs (send_whatsapp_meta twilio_cfg calm "+1555" "Hi" fresh).2
     = logs fresh ++ [LogError "Meta WABA credentials not configured." []])
  ∧ posts (send_whatsapp_meta meta_cfg rejecting "+1555" "Hi" fresh).2
    = posts fresh ++ [meta_request meta_cfg "+1555" "Hi"].
Proof.
  split.
  - apply (proj1 (meta_adapter_verdict twilio_cfg calm "+1555" "Hi" fresh)). reflexivity.
  - apply (proj2 (meta_adapter_verdict meta_cfg rejecting "+1555" "Hi" fresh)).
    reflexivity.
Defined.

(** X3. A sheet that cannot be loaded, or that lacks a required column,
    ends the run at once: the run returns normally, sends and records
    nothing, reads no clock, and logs the start and the reason. For a
    missing column the one named is the first missing of name, phone,
    birthday, looked up among the headers stripped of white space and
    lower-cased. A header that is not a string (a number, a date) has no
    [strip]: the run then raises [AttributeError] while renaming the
    columns, before the required columns are looked at, having logged
    the start only. *)
Theorem main_refuses_bad_sheet (cfg : config) (ext : external) (w : world) :
  let out := main cfg ext w in
  (read_excel ext (CONTACTS_FILE cfg) (CONTACTS_SHEET cfg) = None →
     out.1 = Ok tt ∧ untouched w out.2 ∧ ticks out.2 = ticks w
     ∧ logs out.2 = logs w ++ [LogInfo "Starting birthday bot." [];
                              LogException "Failed to load contacts file: %s"
                                           [CONTACTS_FILE cfg]])
  ∧ (∀ df c,
       read_excel ext (CONTACTS_FILE cfg) (CONTACTS_SHEET cfg) = Some df →
       c ∈ columns df → (∀ s, c ≠ PStr s) →
       out.1 = Raise AttributeError ∧ untouched w out.2 ∧ ticks out.2 = ticks w
       ∧ logs out.2 = logs w ++ [LogInfo "Starting birthday bot." []])
  ∧ (∀ df ss r,
       read_excel ext (CONTACTS_FILE cfg) (CONTACTS_SHEET cfg) = Some df →
       columns df = PStr <$> ss →
       r ∈ required → r ∉ (λ c, lower (strip c)) <$> ss →
       ∃ i r1,
         required !! i = Some r1 ∧ (r1 ∉ (λ c, lower (strip c)) <$> ss)
         ∧ (∀ j r0, required !! j = Some r0 → (j < i)%nat →
              r0 ∈ (λ c, lower (strip c)) <$> ss)
         ∧ out.1 = Ok tt ∧ untouched w out.2 ∧ ticks out.2 = ticks w
         ∧ logs out.2 = logs w ++ [LogInfo "Starting birthday bot." [];
                                  LogError "Contacts file missing required column: %s"
                                           [r1]]).
Proof.
  cbv zeta. split; [|split].
  - intros Hload. rewrite main_unloaded by done. by repeat split.
  - intros df c Hload Hc Hns.
    destruct (normalise_all_cases (columns df)) as [(ss & Hss & _)|[_ Hn]].
    + rewrite Hss in Hc. apply list_elem_of_fmap in Hc as (s & -> & _). by destruct (Hns s).
    + rewrite (main_bad_header cfg ext w df AttributeError) by done. by repeat split.
  - intros df ss r Hload Hss Hr Hmiss.
    destruct (list_find (λ r, r ∉ (λ c, lower (strip c)) <$> ss) required)
      as [[i r1]|] eqn:Hfind.
    + rewrite (main_missing cfg ext w df ((λ c, lower (strip c)) <$> ss) i r1);
        [|done|by rewrite Hss, normalise_all_strings|done].
      apply list_find_Some in Hfind as (Hi & Hr1 & Hbefore).
      exists i, r1. split; [done|]. split; [done|].
      split. { intros j r0 Hj Hlt. specialize (Hbefore j r0 Hj Hlt).
               by apply dec_stable in Hbefore. }
      by repeat split.
    + apply list_find_None in Hfind. rewrite Forall_forall in Hfind.
      by destruct (Hfind r Hr).
Qed.

Lemma main_refuses_bad_sheet_witness :
  ((main twilio_cfg numbered fresh).1 = Raise AttributeError
   ∧ untouched fresh (main twilio_cfg numbered fresh).2
   ∧ ticks (main twilio_cfg numbered fresh).2 = ticks fresh
   ∧ logs (main twilio_cfg numbered fresh).2
     = logs fresh ++ [LogInfo "Starting birthday bot." []])
  ∧ ∃ i r1,
      required !! i = Some r1
      ∧ (r1 ∉ (λ c, lower (strip c)) <$> ["Name"; "Birthday "])
      ∧ (∀ j r0, required !! j = Some r0 → (j < i)%nat →
           r0 ∈ (λ c, lower (strip c)) <$> ["Name"; "Birthday "])
      ∧ (main twilio_cfg headless fresh).1 = Ok tt
      ∧ untouched fresh (main twilio_cfg headless fresh).2
      ∧ ticks (main twilio_cfg headless fresh).2 = ticks fresh
      ∧ logs (main twilio_cfg headless fresh).2
        = logs fresh ++ [LogInfo "Starting birthday bot." [];
                         LogError "Contacts file missing required column: %s" [r1]].
Proof.
  split.
  - apply (proj1 (proj2 (main_refuses_bad_sheet twilio_cfg numbered fresh))
             (DataFrame [PStr "name"; PInt 2024] []) (PInt 2024)).
    + reflexivity.
    + simpl. set_solver.
    + discriminate.
  - apply (proj2 (proj2 (main_refuses_bad_sheet twilio_cfg headless fresh))
             (DataFrame [PStr "Name"; PStr "Birthday "] []) ["Name"; "Birthday "] "phone").
    + reflexivity.
    + reflexivity.
    + unfold required. set_solver.
    + vm_compute. intros H. repeat (apply elem_of_cons in H as [[=]|H]).
      by apply elem_of_nil in H.
Defined.

(** Headers are compared after Python's [strip] and [lower]: a no-break
    space before the label and an ideographic space after it go, like
    the ASCII blanks. *)
Example header_with_wide_spaces :
  normalise (PStr (bytes [194; 160]%nat +:+ "Phone " +:+ bytes [227; 128; 128]%nat))
  = Ok "phone".
Proof. by vm_compute. Qed.



(** The runs that do raise: a numeric header, two birthday columns, a
    negative pause. *)
Example raising_runs :
  (main twilio_cfg numbered fresh).1 = Raise AttributeError
  ∧ (main twilio_cfg doubled fresh).1 = Raise ValueError
  ∧ (main hasty_cfg calm fresh).1 = Raise ValueError.
Proof. by vm_compute. Qed.

(** X5. What a run writes: every row of the store after the run was
    there before, or sits under the run's UTC year and holds a message
    the sender was called with for that phone during the run. Rows under
    other years, and under phones the sender was not called for, are as
    before. *)
Theorem main_writes_only_sent_messages (cfg : config) (ext : external) (w : world) :
  ∃ l,
    attempts (main cfg ext w).2 = attempts w ++ l
    ∧ (∀ k row, sent (main cfg ext w).2 !! k = Some row →
         sent w !! k = Some row ∨ ∃ p, k = (p, run_year ext w) ∧ (p, row.2) ∈ l)
    ∧ (∀ p y, y ≠ run_year ext w → sent (main cfg ext w).2 !! (p, y) = sent w !! (p, y))
    ∧ (∀ p y, p ∉ l.*1 → sent (main cfg ext w).2 !! (p, y) = sent w !! (p, y)).
Proof.
  destruct (main_summary cfg ext w) as (r & w' & l & -> & Ha & _ & Hfr & Hmsg & _). simpl.
  exists l. split; [done|]. split; [done|]. split.
  - intros p y Hy. apply Hfr. intros (q & Heq & _)%list_elem_of_fmap. by injection Heq.
  - intros p y Hp. apply Hfr. intros (q & Heq & Hq)%list_elem_of_fmap.
    injection Heq as -> _. done.
Qed.

(** X6. How the cap setting turns into turns of the sending loop, under
    a pause setting [time.sleep] accepts. A cap of at least the number
    of recipients gives every one a turn; a cap of zero gives none and
    leaves the state as it was; a negative cap [-k] leaves out the last
    [k] recipients (Python's slice), so that the first [length - k]
    still get a turn. *)
Theorem cap_edges (cfg : config) (ext : external) (yr : Z) (to_send : list candidate)
    (w : world) :
  sleep_check (SEND_DELAY_SECONDS cfg) = Ok tt →
  let out := sending cfg ext yr to_send w in
  let turns := (sleeps out.2 - sleeps w)%nat in
  (∃ n, out.1 = Ok n)
  ∧ (Z.of_nat (length to_send) ≤ MAX_MESSAGES_PER_RUN cfg → turns = length to_send)
  ∧ (MAX_MESSAGES_PER_RUN cfg = 0 → out = (Ok 0, w))
  ∧ (MAX_MESSAGES_PER_RUN cfg < 0 →
       turns = (length to_send - Z.to_nat (- MAX_MESSAGES_PER_RUN cfg))%nat
       ∧ out = for_each (send_to cfg ext yr)
                 (take (length to_send - Z.to_nat (- MAX_MESSAGES_PER_RUN cfg)) to_send) 0 w).
Proof.
  intros Hd. cbv zeta.
  destruct (sending_paced cfg ext yr to_send w Hd) as (n & w' & l & Hrun & Hz & _).
  split; [rewrite Hrun; eauto|]. split; [|split].
  - intros Hcap. rewrite Hrun. simpl. rewrite Hz, slice_to_cap by lia.
    rewrite length_take. lia.
  - intros H0. unfold sending. rewrite H0. done.
  - intros Hneg. split.
    + rewrite Hrun. simpl. rewrite Hz. unfold slice_to.
      rewrite (proj2 (Z.leb_gt 0 _)) by lia. rewrite length_take. lia.
    + unfold sending, slice_to. by rewrite (proj2 (Z.leb_gt 0 _)) by lia.
Qed.

Lemma cap_edges_witness :
  (sleeps (sending both_cfg calm 2024 [bob; cy] fresh).2 - sleeps fresh)%nat
  = length [bob; cy].
Proof.
  apply (proj1 (proj2 (cap_edges both_cfg calm 2024 [bob; cy] fresh eq_refl))).
  by vm_compute.
Defined.

(** X7. Without a template and without OpenAI the composer returns a
    builtin greeting with the name put in verbatim, whatever characters
    the name holds. Falsy notes (absent, empty, zero) add nothing; truthy
    notes whose text holds no brace are appended as they are after
    [" PS: "], an empty cell's [nan] included. *)
Theorem builtin_greeting (cfg : config) (ext : external) (name : string)
    (notes template : pyval) (w : world) :
  truthy template = false →
  negb (configured (OPENAI_API_KEY cfg)) || negb (openai_imported cfg) = true →
  ∃ pre post,
    pre +:+ "{name}" +:+ post ∈ builtin_templates
    ∧ (truthy notes = false →
         (generate_personal_message cfg ext name notes template w).1
         = Ok (pre +:+ name +:+ post))
    ∧ (truthy notes = true → no_brace (str notes) = true →
         (generate_personal_message cfg ext name notes template w).1
         = Ok (pre +:+ name +:+ post +:+ " PS: " +:+ str notes)).
Proof.
  intros Ht Hc.
  destruct (generate_builtin cfg ext name notes template w Ht Hc) as (t & w' & Hin & -> & _).
  destruct (builtin_shape t Hin) as (pre & post & -> & Hpre & Hpost).
  exists pre, post. split; [done|]. cbn [fst]. split.
  - intros ->. rewrite format_builtin_alone by done. by rewrite replace_around.
  - intros -> Hn. rewrite format_builtin by done. rewrite replace_around by done.
    unfold format. rewrite <- (append_empty_r (" PS: " +:+ str notes)).
    rewrite (format_from_plain (other_field ext) name (" PS: " +:+ str notes) "") by done.
    cbn [format_from emit]. by rewrite append_empty_r, !append_assoc.
Qed.

Lemma builtin_greeting_witness :
  ∃ pre post,
    pre +:+ "{name}" +:+ post ∈ builtin_templates
    ∧ (truthy PNaN = false →
         (generate_personal_message twilio_cfg calm "A{l}" PNaN PNone fresh).1
         = Ok (pre +:+ "A{l}" +:+ post))
    ∧ (truthy PNaN = true → no_brace (str PNaN) = true →
         (generate_personal_message twilio_cfg calm "A{l}" PNaN PNone fresh).1
         = Ok (pre +:+ "A{l}" +:+ post +:+ " PS: " +:+ str PNaN)).
Proof.
  apply (builtin_greeting twilio_cfg calm "A{l}" PNaN PNone fresh); reflexivity.
Defined.

(** X8. A template that is truthy but not a string blocks the
    recipient. The [nan] of an empty cell and a number have no
    [replace], so the composer raises [AttributeError]; a date has a
    [replace] of its own, which refuses these arguments, and the
    composer raises what that raises. Either way it raises before doing
    anything; the recipient's [try] statement then ends without a call
    of the sender, without a record and with the counter as it was, the
    exception logged; and with a pause setting [time.sleep] accepts the
    turn ends with its pause. *)
Theorem non_string_template_blocks (cfg : config) (ext : external) (yr cnt : Z)
    (name phone : string) (notes : cell) (template : pyval) (w : world) :
  truthy template = true → (∀ s, template ≠ PStr s) →
  generate_personal_message cfg ext name notes template w
  = (Raise (match template with
            | PDate _ => replace_on_date ext
            | _ => AttributeError
            end), w)
  ∧ guarded_deliver cfg ext yr cnt (name, phone, notes, Scalar template) w
    = (Ok cnt,
       World (ticks w) (sent w) (attempts w) (posts w)
             (logs w ++ [LogException "Exception sending to %s (%s)." [name; phone]])
             (sleeps w))
  ∧ (sleep_check (SEND_DELAY_SECONDS cfg) = Ok tt →
     send_to cfg ext yr cnt (name, phone, notes, Scalar template) w
     = (Ok cnt,
        World (ticks w) (sent w) (attempts w) (posts w)
              (logs w ++ [LogException "Exception sending to %s (%s)." [name; phone]])
              (S (sleeps w)))).
Proof.
  intros Ht Hns.
  assert (Hgen : generate_personal_message cfg ext name notes template w
                 = (Raise (match template with
                           | PDate _ => replace_on_date ext
                           | _ => AttributeError
                           end), w)).
  { rewrite generate_template by done. destruct template; try done. by destruct (Hns s). }
  assert (Hg : guarded_deliver cfg ext yr cnt (name, phone, notes, Scalar template) w
               = (Ok cnt,
                  World (ticks w) (sent w) (attempts w) (posts w)
                        (logs w ++ [LogException "Exception sending to %s (%s)."
                                                 [name; phone]])
                        (sleeps w))).
  { unfold guarded_deliver. rewrite run_try, deliver_run, Hgen. by run. }
  split; [done|]. split; [done|].
  intros Hd. unfold send_to. rewrite run_bind, Hg, run_bind. unfold sleep. by rewrite Hd.
Qed.

Lemma non_string_template_blocks_witness :
  (generate_personal_message twilio_cfg calm "Bob" (PStr "") PNaN fresh
   = (Raise AttributeError, fresh)
   ∧ send_to twilio_cfg calm 2024 0 ("Bob", "+447000", Scalar (PStr ""), Scalar PNaN) fresh
     = (Ok 0,
        World (ticks fresh) (sent fresh) (attempts fresh) (posts fresh)
              (logs fresh
               ++ [LogException "Exception sending to %s (%s)." ["Bob"; "+447000"]])
              (S (sleeps fresh))))
  ∧ generate_personal_message twilio_cfg calm "Bob" (PStr "") (PDate (Date 2024 11 2)) fresh
    = (Raise TypeError, fresh).
Proof.
  split.
  - destruct (non_string_template_blocks twilio_cfg calm 2024 0 "Bob" "+447000"
                (Scalar (PStr "")) PNaN fresh eq_refl ltac:(discriminate))
      as (Hgen & _ & Hturn).
    split; [exact Hgen|]. by apply Hturn.
  - apply (non_string_template_blocks twilio_cfg calm 2024 0 "Bob" "+447000"
             (Scalar (PStr "")) (PDate (Date 2024 11 2)) fresh eq_refl ltac:(discriminate)).
Defined.

(** X9. When the provider accepts no request (every answer has a status
    other than 200 and 201, or the transport fails) and the pause
    setting is one [time.sleep] accepts, the Sending stage still gives
    every recipient under the cap a turn, returns a count of zero and
    leaves the store exactly as it was, under any configuration: nobody
    is marked as greeted. *)
Theorem nothing_accepted_nothing_recorded (cfg : config) (ext : external) (yr : Z)
    (to_send : list candidate) (w : world) :
  (∀ n r status body, http_post ext n r = Some (status, body) → accepted status = false) →
  sleep_check (SEND_DELAY_SECONDS cfg) = Ok tt →
  ∃ w', sending cfg ext yr to_send w = (Ok 0, w')
        ∧ sent w' = sent w
        ∧ sleeps w' = (sleeps w + length (slice_to to_send (MAX_MESSAGES_PER_RUN cfg)))%nat.
Proof.
  intros Hrej Hd. unfold sending.
  generalize (slice_to to_send (MAX_MESSAGES_PER_RUN cfg)) as cands. intros cands.
  generalize 0 as cnt. revert w.
  induction cands as [|c cands IH]; intros w cnt.
  - exists w. simpl. split; [done|]. split; [done|lia].
  - simpl. rewrite run_bind. destruct c as [[[name phone] notes] template].
    assert (Hturn : ∃ w1, send_to cfg ext yr cnt (name, phone, notes, template) w
                          = (Ok cnt, w1) ∧ sent w1 = sent w ∧ sleeps w1 = S (sleeps w)).
    { destruct (send_to_paced cfg ext yr cnt (name, phone, notes, template) w Hd)
        as (Hr & Hs & _ & Hz).
      destruct (guarded_cases cfg ext yr cnt name phone notes template w) as [Hz0 Hcases].
      destruct (send_to cfg ext yr cnt (name, phone, notes, template) w) as [r1 w1].
      cbn [fst snd] in Hr, Hs, Hz. exists w1. rewrite Hr, Hs, Hz, Hz0.
      destruct (generate_personal_message cfg ext name notes template w) as [[msg|e] w0].
      - pose proof (send_whatsapp_not_accepted cfg ext phone msg w0 Hrej) as Hno.
        destruct ((send_whatsapp cfg ext phone msg w0).1) as [[|]|e]; [done| |];
          destruct Hcases as [Hc1 Hc2]; split; [|done| |done];
          by destruct (guarded_deliver cfg ext yr cnt (name, phone, notes, template) w);
            simpl in *; subst.
      - destruct Hcases as (Hc1 & Hc2 & _). split; [|done].
        by destruct (guarded_deliver cfg ext yr cnt (name, phone, notes, template) w);
          simpl in *; subst. }
    destruct Hturn as (w1 & -> & Hs1 & Hz1).
    destruct (IH w1 cnt) as (w' & -> & Hs & Hz). exists w'.
    split; [done|]. split; [congruence|]. simpl. lia.
Qed.

Lemma nothing_accepted_nothing_recorded_witness :
  ∃ w', sending twilio_cfg rejecting 2024 [bob; cy] greeted = (Ok 0, w')
        ∧ sent w' = sent greeted
        ∧ sleeps w' = (sleeps greeted
                       + length (slice_to [bob; cy] (MAX_MESSAGES_PER_RUN twilio_cfg)))%nat.
Proof.
  apply (nothing_accepted_nothing_recorded twilio_cfg rejecting 2024 [bob; cy] greeted).
  - intros n r status body [= <- _]. reflexivity.
  - reflexivity.
Defined.

(** X10. The Filtering stage checks each row against the store only, and
    the store does not change during the stage: two rows with the same
    phone whose birthdays both parse and match at their turn, with no
    record for the year, are both listed, in row order. *)
Theorem same_phone_listed_twice (ext : external) (cols : list string) (yr : Z)
    (row1 row2 : list pyval) (b1 b2 : date) (w : world) :
  cand_phone (candidate_of ext cols row1) = cand_phone (candidate_of ext cols row2) →
  sent w !! (cand_phone (candidate_of ext cols row1), yr) = None →
  parse_birthday ext (row_get cols row1 "birthday" PNone) = Ok (Some (Stamp b1)) →
  parse_birthday ext (row_get cols row2 "birthday" PNone) = Ok (Some (Stamp b2)) →
  (is_birthday_today ext b1 (row_get cols row1 "timezone" PNone) w).1 = Ok true →
  (is_birthday_today ext b2 (row_get cols row2 "timezone" PNone)
     (is_birthday_today ext b1 (row_get cols row1 "timezone" PNone) w).2).1 = Ok true →
  (filtering ext cols yr [row1; row2] w).1
  = Ok [candidate_of ext cols row1; candidate_of ext cols row2].
Proof.
  intros Hph Hnone Hp1 Hp2 Hm1 Hm2. unfold filtering. simpl.
  rewrite run_bind, (consider_eligible ext cols yr [] row1 b1 w) by done.
  rewrite run_bind, (consider_eligible ext cols yr _ row2 b2 _); [done..|].
  destruct (row_get cols row1 "timezone" PNone) as [v|vs];
    [|by rewrite is_birthday_today_series in Hm1].
  destruct (is_birthday_today_run ext b1 v w) as (tz & w1 & -> & Hu & _).
  cbn [snd]. destruct Hu as (Hs & _). by rewrite Hs, <- Hph.
Qed.

Lemma same_phone_listed_twice_witness :
  (filtering calm ["name"; "phone"; "birthday"; "timezone"; "notes"] 2024
     [ [PStr "Ann"; PStr "+1555"; PDate (Date 1985 11 2); PStr "Asia/Kolkata"; PStr ""];
       [PStr "Annie"; PStr " +1555"; PStr "1990-11-02"; PStr ""; PStr ""] ] fresh).1
  = Ok [ candidate_of calm ["name"; "phone"; "birthday"; "timezone"; "notes"]
           [PStr "Ann"; PStr "+1555"; PDate (Date 1985 11 2); PStr "Asia/Kolkata"; PStr ""];
         candidate_of calm ["name"; "phone"; "birthday"; "timezone"; "notes"]
           [PStr "Annie"; PStr " +1555"; PStr "1990-11-02"; PStr ""; PStr ""] ].
Proof.
  apply (same_phone_listed_twice calm ["name"; "phone"; "birthday"; "timezone"; "notes"] 2024
           [PStr "Ann"; PStr "+1555"; PDate (Date 1985 11 2); PStr "Asia/Kolkata"; PStr ""]
           [PStr "Annie"; PStr " +1555"; PStr "1990-11-02"; PStr ""; PStr ""]
           (Date 1985 11 2) (Date 1990 11 2) fresh); reflexivity.
Defined.

(** X11. With OpenAI configured and answering, the message is the reply
    with the white space around it stripped, in Python's sense of white
    space; no template is drawn, nothing is logged, and the one
    interaction is the call itself. *)
Theorem openai_reply_is_stripped (cfg : config) (ext : external) (name : string)
    (notes template : pyval) (content : string) (w : world) :
  truthy template = false →
  configured (OPENAI_API_KEY cfg) = true → openai_imported cfg = true →
  chat_completion ext (ticks w) (OPENAI_MODEL cfg) (prompt_for name notes) = Some content →
  generate_personal_message cfg ext name notes template w
  = (Ok (strip content),
     World (S (ticks w)) (sent w) (attempts w) (posts w) (logs w) (sleeps w)).
Proof.
  intros Ht Hk Hi Hok. unfold generate_personal_message. rewrite run_bind. unfold lift at 1.
  simpl truth. rewrite Ht, Hk, Hi. cbn [negb orb]. cbv beta iota zeta.
  rewrite run_try. unfold openai_reply. rewrite run_bind. unfold tick at 1.
  by rewrite Hok.
Qed.

Lemma openai_reply_is_stripped_witness :
  generate_personal_message openai_cfg chatty "Ann" (PStr "loves tea") PNone fresh
  = (Ok "Happy day, Ann!",
     World (S (ticks fresh)) (sent fresh) (attempts fresh) (posts fresh) (logs fresh)
           (sleeps fresh)).
Proof.
  etrans.
  - apply (openai_reply_is_stripped openai_cfg chatty "Ann" (PStr "loves tea") PNone
             (bytes [194; 160]%nat +:+ "Happy day, Ann!" +:+ bytes [226; 128; 131]%nat)
             fresh); reflexivity.
  - by vm_compute.
Defined.

(** X12. The store keeps one row per phone and year: recording under a
    key that has no row adds exactly one row, and a record under another
    year, or for another phone, neither hides nor changes an earlier
    one. *)
Theorem records_of_other_years_stay (ext : external) (phone : string) (yr : Z)
    (message : string) (w : world) :
  sent w !! (phone, yr) = None →
  let w1 := (record_send ext phone yr message w).2 in
  size (sent w1) = S (size (sent w))
  ∧ (∀ phone0 yr0, (phone0, yr0) ≠ (phone, yr) →
       (already_sent phone0 yr0 w1).1 = (already_sent phone0 yr0 w).1
       ∧ sent w1 !! (phone0, yr0) = sent w !! (phone0, yr0))
  ∧ (already_sent phone yr w).1 = Ok false
  ∧ (already_sent phone yr w1).1 = Ok true.
Proof.
  intros Hnone. cbv zeta.
  destruct (record_send_run ext phone yr message w) as (w1 & -> & Hs1 & _). cbn [snd].
  rewrite !already_sent_run. cbn [fst]. rewrite Hs1. split.
  { by apply map_size_insert_None. }
  split.
  - intros phone0 yr0 Hne. rewrite already_sent_run. cbn [fst].
    rewrite Hs1, lookup_insert_ne by done. done.
  - rewrite Hnone, lookup_insert_eq. split.
    + rewrite bool_decide_eq_false_2; [done|]. by intros [? ?].
    + by rewrite bool_decide_eq_true_2.
Qed.

Lemma records_of_other_years_stay_witness :
  size (sent (record_send calm "+1555" 2025 "Happy Birthday, Ann!" greeted).2)
  = S (size (sent greeted))
  ∧ (∀ phone0 yr0, (phone0, yr0) ≠ ("+1555", 2025) →
       (already_sent phone0 yr0
          (record_send calm "+1555" 2025 "Happy Birthday, Ann!" greeted).2).1
       = (already_sent phone0 yr0 greeted).1
       ∧ sent (record_send calm "+1555" 2025 "Happy Birthday, Ann!" greeted).2
           !! (phone0, yr0)
         = sent greeted !! (phone0, yr0))
  ∧ (already_sent "+1555" 2025 greeted).1 = Ok false
  ∧ (already_sent "+1555" 2025
       (record_send calm "+1555" 2025 "Happy Birthday, Ann!" greeted).2).1 = Ok true.
Proof.
  apply (records_of_other_years_stay calm "+1555" 2025 "Happy Birthday, Ann!" greeted).
  by vm_compute.
Defined.

(** X13. A time-zone value that is not text (the [nan] of an empty cell,
    a number, a date) or is the empty string is read as UTC, without an
    error: the answer is the comparison with the UTC date. *)
Theorem odd_timezone_is_utc (ext : external) (bday : date) (tz_name : pyval) (w : world) :
  (∀ s, tz_name = PStr s → s = "") →
  (is_birthday_today ext bday tz_name w).1
  = Ok ((month bday =? month (local_date ext utc (clock ext (ticks w))))
        && (day bday =? day (local_date ext utc (clock ext (ticks w))))).
Proof.
  intros Hodd.
  destruct (is_birthday_today_run ext bday tz_name w)
    as (tz & w' & -> & _ & _ & _ & Hfalsy & _ & _ & Hnot).
  cbn [fst same_day]. destruct tz_name as [| |s|n|d].
  3: { rewrite (Hodd s eq_refl) in Hfalsy. by rewrite Hfalsy. }
  1: by rewrite Hfalsy.
  all: by rewrite Hnot.
Qed.

Lemma odd_timezone_is_utc_witness :
  (is_birthday_today calm (Date 1990 11 2) PNaN fresh).1
  = Ok ((month (Date 1990 11 2) =? month (local_date calm utc (clock calm (ticks fresh))))
        && (day (Date 1990 11 2) =? day (local_date calm utc (clock calm (ticks fresh))))).
Proof.
  apply (odd_timezone_is_utc calm (Date 1990 11 2) PNaN fresh). discriminate.
Defined.



(** X15. Two columns that come out labelled birthday stop the run at the
    first row: the birthday read under the label is a Series, on which
    [parse_birthday] raises [ValueError], outside any [try]. Nothing is
    sent and nothing is recorded. *)
Theorem duplicate_birthday_columns_abort (cfg : config) (ext : external) (w : world)
    (df : dataframe) (cols : list string) (row : list pyval) (rws : list (list pyval)) :
  read_excel ext (CONTACTS_FILE cfg) (CONTACTS_SHEET cfg) = Some df →
  normalise_all (columns df) = Ok cols →
  (∀ r, r ∈ required → r ∈ cols) →
  (2 ≤ length (positions cols "birthday" 0))%nat →
  rows df = row :: rws →
  (main cfg ext w).1 = Raise ValueError ∧ untouched w (main cfg ext w).2.
Proof.
  intros Hload Hn Hreq Hdup Hrows.
  assert (Hm : main cfg ext w
               = (Raise ValueError,
                  World (S (ticks w)) (sent w) (attempts w) (posts w)
                        (logs w ++ [LogInfo "Starting birthday bot." []]) (sleeps w)));
    [|rewrite Hm; by repeat split].
  unfold main.
  rewrite run_bind. unfold log at 1. rewrite run_bind. unfold init_db at 1.
  unfold mret at 1, M_ret at 1. rewrite Hload.
  rewrite run_bind. unfold lift at 1. rewrite Hn.
  destruct (list_find _ required) as [[i r]|] eqn:Hfind.
  { apply list_find_Some in Hfind as (Hi & Hr & _). destruct Hr.
    apply Hreq. by eapply list_elem_of_lookup_2. }
  rewrite run_bind. unfold utcnow at 1. rewrite run_bind. unfold tick at 1.
  unfold mret at 1, M_ret at 1. cbv beta iota. rewrite run_bind.
  rewrite Hrows. unfold filtering. cbn [for_each]. rewrite run_bind.
  unfold consider at 1. rewrite run_bind. unfold lift at 1.
  assert (Hser : ∃ vs, row_get cols row "birthday" PNone = Series vs).
  { unfold row_get. destruct (positions cols "birthday" 0) as [|i [|j hits]];
      simpl in Hdup; [lia|lia|eauto]. }
  by destruct Hser as [vs ->].
Qed.

Lemma duplicate_birthday_columns_abort_witness :
  (main twilio_cfg doubled fresh).1 = Raise ValueError
  ∧ untouched fresh (main twilio_cfg doubled fresh).2.
Proof.
  apply (duplicate_birthday_columns_abort twilio_cfg doubled fresh
           (DataFrame [PStr "name"; PStr "phone"; PStr "Birthday"; PStr "birthday "]
              [ [PStr "Bob"; PStr "+447000"; PStr "1990-11-02"; PStr "1990-11-02"] ])
           ["name"; "phone"; "birthday"; "birthday"]
           [PStr "Bob"; PStr "+447000"; PStr "1990-11-02"; PStr "1990-11-02"] []).
  - reflexivity.
  - reflexivity.
  - intros r Hr. unfold required in Hr.
    repeat (apply elem_of_cons in Hr as [->|Hr]); [| | |by apply elem_of_nil in Hr];
      repeat constructor.
  - simpl. lia.
  - reflexivity.
Defined.
